(** * Weather dashboard: a shallow embedding of [script.js]

    The script is a single-threaded, event-driven page controller.  Its
    numbers are modelled as exact rationals ([Q]); where a property turns
    on the rounding of the script's double-precision arithmetic, the
    expression at hand is also given in binary64 ([Js.double],
    [getWindDirection64], [sample_coordinate64]).  Its DOM regions are
    lists of structured nodes, and its effects (page state, the log of
    issued [fetch] calls, [Math.random] draws, exceptions caught by
    [try]/[catch]) by a state-and-exception monad.  One lookup is run to
    completion at a time; interleaving of overlapping lookups is not part
    of this model.

    The page is taken to contain the elements the script looks up by id
    ([#cityInput], [#currentWeather], [#forecast], [#map]) and to have
    loaded Leaflet; the map controls and their labels are part of the
    state.  Entries of the geocoding answer carry numeric coordinates and
    the [current] block of the weather answer numeric fields; everything
    else that a response may lack ([results], a name, a country,
    [current], [daily], any of the daily arrays, array entries past the
    end) is modelled as it may be absent. *)

From Stdlib Require Import QArith Qround Lqa ZArith Lia.
From Stdlib Require Floats.SpecFloat.
From stdpp Require Import base option list gmap strings.

Local Open Scope Z_scope.
Local Open Scope string_scope.
Local Open Scope list_scope.

(** ** JavaScript primitives used by the script *)

Module Js.

(** [Math.round]: nearest integer, ties towards +infinity. *)
Definition Math_round (x : Q) : Z := Qfloor (x + (1 # 2)).

(** The [%] operator on integers: the result takes the sign of the dividend. *)
Definition rem (a b : Z) : Z := Z.rem a b.

(** Array indexing [arr[i]] with an integer index: [None] is [undefined],
    which is also what a negative index yields. *)
Definition array_get {A} (arr : list A) (i : Z) : option A :=
  if (i <? 0)%Z then None else arr !! Z.to_nat i.

(** Text typed by the user is kept as a sequence of UTF-16 code units. *)
Definition ustring := list N.

(** WhiteSpace and LineTerminator code units, as stripped by
    [String.prototype.trim]. *)
Definition is_white_space (c : N) : bool :=
  ((c =? 9) || (c =? 10) || (c =? 11) || (c =? 12) || (c =? 13) || (c =? 32)
   || (c =? 160) || (c =? 5760) || ((8192 <=? c) && (c <=? 8202))
   || (c =? 8232) || (c =? 8233) || (c =? 8239) || (c =? 8287)
   || (c =? 12288) || (c =? 65279))%N.

Fixpoint trimStart (s : ustring) : ustring :=
  match s with
  | c :: s' => if is_white_space c then trimStart s' else s
  | [] => []
  end.

Definition trimEnd (s : ustring) : ustring := rev (trimStart (rev s)).

Definition trim (s : ustring) : ustring := trimEnd (trimStart s).

(** [s.includes(sub)] on literal text. *)
Fixpoint includes (s sub : string) : bool :=
  if String.prefix sub s then true
  else match s with
       | String _ s' => includes s' sub
       | EmptyString => false
       end.

(** A sequence of code units is well formed when every surrogate is half
    of a pair; [encodeURIComponent] throws a [URIError] on any other. *)
Definition is_high_surrogate (c : N) : bool := ((55296 <=? c) && (c <=? 56319))%N.

Definition is_low_surrogate (c : N) : bool := ((56320 <=? c) && (c <=? 57343))%N.

Fixpoint well_formed (s : ustring) : bool :=
  match s with
  | [] => true
  | c :: rest =>
      if is_high_surrogate c then
        match rest with
        | d :: rest' => is_low_surrogate d && well_formed rest'
        | [] => false
        end
      else if is_low_surrogate c then false
      else well_formed rest
  end.

(** *** Double precision

    A JavaScript number is an IEEE 754 binary64 value; the operators
    [+ - * /] round to nearest, ties to even. *)
Definition double : Type := SpecFloat.spec_float.

(** The double nearest to [m * 2 ^ e], and to the decimal [n / d] of a
    numeric literal (for [n] and [d] below [2 ^ 53]). *)
Definition of_binary (m e : Z) : double :=
  SpecFloat.binary_normalize 53 1024 m e false.

Definition fadd : double -> double -> double := SpecFloat.SFadd 53 1024.
Definition fsub : double -> double -> double := SpecFloat.SFsub 53 1024.
Definition fmul : double -> double -> double := SpecFloat.SFmul 53 1024.
Definition fdiv : double -> double -> double := SpecFloat.SFdiv 53 1024.

Definition of_decimal (n d : Z) : double := fdiv (of_binary n 0) (of_binary d 0).

(** The rational that a finite double denotes exactly. *)
Definition to_Q (x : double) : Q :=
  match x with
  | SpecFloat.S754_finite s m e =>
      let n := if s then Z.neg m else Z.pos m in
      if (0 <=? e)%Z then inject_Z (n * 2 ^ e)
      else Qmake n (Z.to_pos (2 ^ (- e)))
  | _ => 0%Q
  end.

(** [Math.round] on a double: the result is exact; [None] stands for the
    results [NaN] and [Infinity], which are not integers. *)
Definition Math_round64 (x : double) : option Z :=
  match x with
  | SpecFloat.S754_zero _ => Some 0
  | SpecFloat.S754_finite s m e =>
      let n := if s then Z.neg m else Z.pos m in
      Some (if (0 <=? e)%Z then n * 2 ^ e
            else (2 * n + 2 ^ (- e)) / 2 ^ (- e + 1))
  | _ => None
  end.

(** [a || b] on a possibly-undefined string: the empty string is falsy. *)
Definition or_else (a : option string) (b : string) : string :=
  match a with
  | Some (String c r) => String c r
  | _ => b
  end.

End Js.

(** ** WeatherCodeCatalog: [getWeatherInfo] *)

Record WeatherInfo := { description : string; icon : string }.

Definition weatherMap : gmap Z WeatherInfo :=
  list_to_map
    [ (0, {| description := "Clear sky"; icon := "â˜€ï¸" |});
      (1, {| description := "Mainly clear"; icon := "ğŸŒ¤ï¸" |});
      (2, {| description := "Partly cloudy"; icon := "â›…" |});
      (3, {| description := "Overcast"; icon := "â˜ï¸" |});
      (45, {| description := "Fog"; icon := "ğŸŒ«ï¸" |});
      (48, {| description := "Depositing rime fog"; icon := "ğŸŒ«ï¸" |});
      (51, {| description := "Light drizzle"; icon := "ğŸŒ¦ï¸" |});
      (53, {| description := "Moderate drizzle"; icon := "ğŸŒ¦ï¸" |});
      (55, {| description := "Dense drizzle"; icon := "ğŸŒ¦ï¸" |});
      (61, {| description := "Slight rain"; icon := "ğŸŒ§ï¸" |});
      (63, {| description := "Moderate rain"; icon := "ğŸŒ§ï¸" |});
      (65, {| description := "Heavy rain"; icon := "â›ˆï¸" |});
      (80, {| description := "Slight rain showers"; icon := "ğŸŒ¦ï¸" |});
      (81, {| description := "Moderate rain showers"; icon := "ğŸŒ§ï¸" |});
      (82, {| description := "Violent rain showers"; icon := "â›ˆï¸" |});
      (95, {| description := "Thunderstorm"; icon := "â›ˆï¸" |});
      (96, {| description := "Thunderstorm with hail"; icon := "â›ˆï¸" |}) ].

Definition unknownInfo : WeatherInfo :=
  {| description := "Unknown"; icon := "â“" |}.

(** [weatherMap[code] || { description: 'Unknown', ... }]: every entry of
    the table is an object, hence truthy. *)
Definition getWeatherInfo (code : Z) : WeatherInfo :=
  default unknownInfo (weatherMap !! code).

(** ** DirectionResolver: [getWindDirection] *)

Definition directions : list string :=
  ["N"; "NNE"; "NE"; "ENE"; "E"; "ESE"; "SE"; "SSE";
   "S"; "SSW"; "SW"; "WSW"; "W"; "WNW"; "NW"; "NNW"].

(** [getWindDirection] in the exact arithmetic of the page model.  The
    result is [None] when [directions[index]] is [undefined]. *)
Definition getWindDirection (degrees : Q) : option string :=
  let index := Js.rem (Js.Math_round (degrees / (45 # 2))) 16 in
  Js.array_get directions index.

(** The same function with the division of [degrees / 22.5] carried out
    in double precision, as the script does; rounding, remainder and
    indexing are exact on doubles.  A quotient that is [NaN] or infinite
    gives the index [NaN], hence [undefined]. *)
Definition getWindDirection64 (degrees : Js.double) : option string :=
  match Js.Math_round64 (Js.fdiv degrees (Js.of_binary 45 (-1))) with
  | Some r => Js.array_get directions (Js.rem r 16)
  | None => None
  end.

(** ** Data exchanged with the collaborators *)

(** One entry of the geocoding response's [results] array.  [name] and
    [country] may be missing ([undefined]). *)
Module GeoResult.
Record t := { latitude : Q; longitude : Q;
              name : option string; country : option string }.
End GeoResult.

(** The [current] block of the weather response. *)
Module Current.
Record t := { temperature_2m : Q; apparent_temperature : Q;
              relative_humidity_2m : Q; wind_speed_10m : Q;
              wind_direction_10m : Q; weather_code : Z }.
End Current.

(** The [daily] block: parallel arrays indexed by day offset.  An array
    that the response lacks is [None]. *)
Module Daily.
Record t := { time : option (list string);
              temperature_2m_max : option (list Q);
              temperature_2m_min : option (list Q);
              weather_code : option (list Z);
              wind_speed_10m_max : option (list Q);
              precipitation_sum : option (list Q) }.
End Daily.

Inductive Exn :=
| TypeError (message : string)
| Error (message : string)
| URIError (message : string)
| FetchFailure (message : string).

(** What [await fetch(..)] followed by [await response.json()] yields: an
    exception (rejected request, body that is not JSON, or a body such as
    [null] whose first property access throws), or the parsed object. *)
Inductive GeoOutcome :=
| GeoThrows (e : Exn)
| GeoJson (results : option (list GeoResult.t)).

Inductive WeatherOutcome :=
| WeatherThrows (e : Exn)
| WeatherJson (current : option Current.t) (daily : option Daily.t).

Inductive Request :=
| GeocodeByName (name : Js.ustring)
| GeocodeByCoordinate (latitude longitude : Q)
| ForecastAt (latitude longitude : Q).

Inductive PositionResult :=
| Position (latitude longitude : Q)
| PositionError (message : string).

(** Everything the page obtains from outside: the two HTTP collaborators
    (answering as a function of the log of requests issued so far, the
    last entry being the request at hand), the stream of [Math.random]
    draws, the device position, and the host's [Date] rendering of a
    [daily.time] entry. *)
Record Host := {
  geocoding_service : list Request -> GeoOutcome;
  weather_api : list Request -> WeatherOutcome;
  random : nat -> Q;
  geolocation : option PositionResult;
  weekday_short : option string -> string;
  getDate : option string -> option Z;
  getMonth : option string -> option Z
}.

(** A request can be issued when its URL can be built: the name of a
    name lookup goes through [encodeURIComponent]. *)
Definition encodable (r : Request) : bool :=
  match r with
  | GeocodeByName name => Js.well_formed name
  | _ => true
  end.

(** What the geocoding call yields for the last request of [log]: the
    answer of the service, or the [URIError] of a request that cannot be
    built and is therefore never sent. *)
Definition geocoding_api (host : Host) (log : list Request) : GeoOutcome :=
  match last log with
  | Some r => if encodable r then geocoding_service host log
              else GeoThrows (URIError "URI malformed")
  | None => geocoding_service host log
  end.

(** ** Page state *)

Module Summary.
Record t := { cityName : option string; country : option string;
              temp : Z; info : WeatherInfo; feelsLike : Z;
              humidity : Q; windSpeed : Q; windDeg : Q;
              windLabel : option string }.
End Summary.

Module Card.
Record t := { dayName : string; date : option Z; month : option Z;
              info : WeatherInfo; maxTemp : option Z; minTemp : option Z;
              windSpeed : option Q; precipitation : option Q }.
End Card.

(** Children of a region of the page. *)
Inductive Node :=
| Markup (html : string)
| LoadingDiv (text : string)
| ErrorDiv (message : string)
| SummaryBlock (v : Summary.t)
| ForecastCard (c : Card.t).

Record Button := { textContent : string; active : bool }.

Record Point := { lat : Q; lon : Q; intensity : Q }.

Record HeatOptions := { radius : Z; blur : Z;
                        gradient : list (Q * string); maxZoom : Z }.

Record HeatLayer := { stamp : nat; points : list Point;
                      options : HeatOptions }.

Inductive Layer :=
| TileLayer (url : string)
| Heat (l : HeatLayer).

Record LeafletMap := { center : Q * Q; zoom : Z; layers : list Layer }.

Record State := {
  leaflet_map : option LeafletMap;      (* [map] *)
  currentLat : Q;
  currentLon : Q;
  heatLayer : option HeatLayer;
  windLayer : option HeatLayer;
  cityInput : Js.ustring;               (* value of the #cityInput field *)
  currentWeather : list Node;           (* children of #currentWeather *)
  forecast : list Node;                 (* children of #forecast *)
  buttons : list Button;                (* the .map-controls buttons *)
  console : list string;
  requests : list Request;              (* every [fetch] issued so far *)
  draws : nat;                          (* [Math.random] calls so far *)
  stamps : nat                          (* layer objects created so far *)
}.

Definition set_leaflet_map (v : option LeafletMap) (s : State) : State :=
  {| leaflet_map := v; currentLat := currentLat s; currentLon := currentLon s;
     heatLayer := heatLayer s; windLayer := windLayer s;
     cityInput := cityInput s; currentWeather := currentWeather s;
     forecast := forecast s; buttons := buttons s; console := console s;
     requests := requests s; draws := draws s; stamps := stamps s |}.

Definition set_center (la lo : Q) (s : State) : State :=
  {| leaflet_map := leaflet_map s; currentLat := la; currentLon := lo;
     heatLayer := heatLayer s; windLayer := windLayer s;
     cityInput := cityInput s; currentWeather := currentWeather s;
     forecast := forecast s; buttons := buttons s; console := console s;
     requests := requests s; draws := draws s; stamps := stamps s |}.

Definition set_heatLayer (v : option HeatLayer) (s : State) : State :=
  {| leaflet_map := leaflet_map s; currentLat := currentLat s;
     currentLon := currentLon s;
     heatLayer := v; windLayer := windLayer s;
     cityInput := cityInput s; currentWeather := currentWeather s;
     forecast := forecast s; buttons := buttons s; console := console s;
     requests := requests s; draws := draws s; stamps := stamps s |}.

Definition set_currentWeather (v : list Node) (s : State) : State :=
  {| leaflet_map := leaflet_map s; currentLat := currentLat s;
     currentLon := currentLon s;
     heatLayer := heatLayer s; windLayer := windLayer s;
     cityInput := cityInput s; currentWeather := v;
     forecast := forecast s; buttons := buttons s; console := console s;
     requests := requests s; draws := draws s; stamps := stamps s |}.

Definition set_forecast (v : list Node) (s : State) : State :=
  {| leaflet_map := leaflet_map s; currentLat := currentLat s;
     currentLon := currentLon s;
     heatLayer := heatLayer s; windLayer := windLayer s;
     cityInput := cityInput s; currentWeather := currentWeather s;
     forecast := v; buttons := buttons s; console := console s;
     requests := requests s; draws := draws s; stamps := stamps s |}.

Definition set_buttons (v : list Button) (s : State) : State :=
  {| leaflet_map := leaflet_map s; currentLat := currentLat s;
     currentLon := currentLon s;
     heatLayer := heatLayer s; windLayer := windLayer s;
     cityInput := cityInput s; currentWeather := currentWeather s;
     forecast := forecast s; buttons := v; console := console s;
     requests := requests s; draws := draws s; stamps := stamps s |}.

Definition set_console (v : list string) (s : State) : State :=
  {| leaflet_map := leaflet_map s; currentLat := currentLat s;
     currentLon := currentLon s;
     heatLayer := heatLayer s; windLayer := windLayer s;
     cityInput := cityInput s; currentWeather := currentWeather s;
     forecast := forecast s; buttons := buttons s; console := v;
     requests := requests s; draws := draws s; stamps := stamps s |}.

Definition set_requests (v : list Request) (s : State) : State :=
  {| leaflet_map := leaflet_map s; currentLat := currentLat s;
     currentLon := currentLon s;
     heatLayer := heatLayer s; windLayer := windLayer s;
     cityInput := cityInput s; currentWeather := currentWeather s;
     forecast := forecast s; buttons := buttons s; console := console s;
     requests := v; draws := draws s; stamps := stamps s |}.

Definition set_draws (v : nat) (s : State) : State :=
  {| leaflet_map := leaflet_map s; currentLat := currentLat s;
     currentLon := currentLon s;
     heatLayer := heatLayer s; windLayer := windLayer s;
     cityInput := cityInput s; currentWeather := currentWeather s;
     forecast := forecast s; buttons := buttons s; console := console s;
     requests := requests s; draws := v; stamps := stamps s |}.

Definition set_stamps (v : nat) (s : State) : State :=
  {| leaflet_map := leaflet_map s; currentLat := currentLat s;
     currentLon := currentLon s;
     heatLayer := heatLayer s; windLayer := windLayer s;
     cityInput := cityInput s; currentWeather := currentWeather s;
     forecast := forecast s; buttons := buttons s; console := console s;
     requests := requests s; draws := draws s; stamps := v |}.

(** ** The monad of page actions: state, and exceptions that a
    [try]/[catch] can intercept *)

Inductive Completion (A : Type) :=
| Normal (a : A) (s : State)
| Throw (e : Exn) (s : State).
Arguments Normal {A} a s.
Arguments Throw {A} e s.

Definition M (A : Type) : Type := State -> Completion A.

#[global] Instance M_ret : MRet M := fun A a s => Normal a s.

#[global] Instance M_bind : MBind M := fun A B f m s =>
  match m s with
  | Normal a s' => f a s'
  | Throw e s' => Throw e s'
  end.

Definition throw {A} (e : Exn) : M A := fun s => Throw e s.

Definition try_catch {A} (body : M A) (handler : Exn -> M A) : M A :=
  fun s => match body s with
           | Normal a s' => Normal a s'
           | Throw e s' => handler e s'
           end.

Definition gets {A} (f : State -> A) : M A := fun s => Normal (f s) s.

Definition modify (f : State -> State) : M unit := fun s => Normal tt (f s).

(** The state an action leaves behind, however it completes. *)
Definition final {A} (c : Completion A) : State :=
  match c with Normal _ s => s | Throw _ s => s end.

Definition returns {A} (c : Completion A) : bool :=
  match c with Normal _ _ => true | Throw _ _ => false end.

(** ** The script's functions *)

Section Script.

Variable host : Host.

Definition console_error (label : string) : M unit :=
  modify (fun s => set_console (console s ++ [label]) s).

Definition Math_random : M Q :=
  fun s => Normal (random host (draws s)) (set_draws (S (draws s)) s).

(** [encodeURIComponent(text)]: the model keeps the text itself as the
    name of the request; an unpaired surrogate is a [URIError]. *)
Definition encodeURIComponent (text : Js.ustring) : M Js.ustring :=
  if Js.well_formed text then mret text
  else throw (URIError "URI malformed").

(** [await fetch(url)] and [await response.json()] against either
    collaborator; the request is logged before it is answered. *)
Definition fetch_geocoding (req : Request) : M (option (list GeoResult.t)) :=
  fun s =>
    let s' := set_requests (requests s ++ [req]) s in
    match geocoding_api host (requests s') with
    | GeoThrows e => Throw e s'
    | GeoJson results => Normal results s'
    end.

Definition fetch_weather (req : Request)
  : M (option Current.t * option Daily.t) :=
  fun s =>
    let s' := set_requests (requests s ++ [req]) s in
    match weather_api host (requests s') with
    | WeatherThrows e => Throw e s'
    | WeatherJson current daily => Normal (current, daily) s'
    end.

(** *** Leaflet calls on the global [map] *)

Definition same_layer (l : HeatLayer) (x : Layer) : bool :=
  match x with
  | Heat l' => Nat.eqb (stamp l') (stamp l)
  | TileLayer _ => false
  end.

Definition with_map {A} (f : LeafletMap -> M A) : M A :=
  m ← gets leaflet_map;
  match m with
  | Some m => f m
  | None => throw (TypeError "map is undefined")
  end.

Definition map_setView (c : Q * Q) (z : Z) : M unit :=
  with_map (fun m =>
    modify (set_leaflet_map
              (Some {| center := c; zoom := z; layers := layers m |}))).

Definition map_removeLayer (l : HeatLayer) : M unit :=
  with_map (fun m =>
    modify (set_leaflet_map
              (Some {| center := center m; zoom := zoom m;
                       layers := filter (fun x => same_layer l x = false)
                                        (layers m) |}))).

Definition map_addLayer (x : Layer) : M unit :=
  with_map (fun m =>
    modify (set_leaflet_map
              (Some {| center := center m; zoom := zoom m;
                       layers := layers m ++ [x] |}))).

Definition L_heatLayer (pts : list Point) (o : HeatOptions) : M HeatLayer :=
  fun s => Normal {| stamp := stamps s; points := pts; options := o |}
                  (set_stamps (S (stamps s)) s).

(** *** Helper functions *)

Definition setActiveButton (buttonText : string) : M unit :=
  modify (fun s =>
    set_buttons
      (List.map (fun btn => {| textContent := textContent btn;
                               active := bool_decide (textContent btn = buttonText) |})
                (buttons s)) s).

Definition showLoading : M unit :=
  modify (set_currentWeather [LoadingDiv "Loading weather data..."]) ;;
  modify (set_forecast [LoadingDiv "Loading forecast..."]).

Definition showError (message : string) : M unit :=
  modify (set_currentWeather [ErrorDiv message]).

(** *** Map layers *)

(** [document.querySelector('.map-controls button.active').textContent]:
    the first active button, a [TypeError] on [null] when there is none. *)
Definition active_textContent : M string :=
  bs ← gets buttons;
  match List.find active bs with
  | Some btn => mret (textContent btn)
  | None => throw (TypeError "Cannot read properties of null")
  end.

(** One round of the sampling loop of [updateMapLayers]. *)
Definition sample_point (activeButton : string) : M Point :=
  r1 ← Math_random;
  la ← gets (fun s => currentLat s + (r1 - (1 # 2)) * (2 # 10))%Q;
  r2 ← Math_random;
  lo ← gets (fun s => currentLon s + (r2 - (1 # 2)) * (2 # 10))%Q;
  r3 ← Math_random;
  if Js.includes activeButton "Temperature" then
    mret {| lat := la; lon := lo; intensity := (r3 * 15 + 15)%Q |}
  else if Js.includes activeButton "Wind" then
    mret {| lat := la; lon := lo; intensity := (r3 * 10)%Q |}
  else
    mret {| lat := la; lon := lo; intensity := (r3 * 5)%Q |}.

(** [for (let i = 0; i < 50; i++) { ... points.push(..) }], with [n] rounds
    left to run. *)
Fixpoint sample_loop (activeButton : string) (n : nat) (pts : list Point)
  : M (list Point) :=
  match n with
  | O => mret pts
  | S n' => p ← sample_point activeButton;
            sample_loop activeButton n' (pts ++ [p])
  end.

(** The coordinate of a sample as lines 234 and 235 compute it in double
    precision from the center and a draw: [center + (r - 0.5) * 0.2]. *)
Definition sample_coordinate64 (center r : Js.double) : Js.double :=
  Js.fadd center
    (Js.fmul (Js.fsub r (Js.of_binary 1 (-1))) (Js.of_decimal 2 10)).

Definition temperature_options : HeatOptions :=
  {| radius := 25; blur := 15;
     gradient := [((4 # 10)%Q, "blue"); ((6 # 10)%Q, "cyan");
                  ((7 # 10)%Q, "lime"); ((8 # 10)%Q, "yellow");
                  (1%Q, "red")];
     maxZoom := 10 |}.

Definition other_options (activeButton : string) : HeatOptions :=
  {| radius := 20; blur := 10;
     gradient :=
       if Js.includes activeButton "Wind" then
         [((4 # 10)%Q, "rgba(0, 0, 255, 0.4)");
          ((6 # 10)%Q, "rgba(0, 255, 255, 0.6)");
          ((8 # 10)%Q, "rgba(255, 255, 0, 0.8)");
          (1%Q, "rgba(255, 0, 0, 1)")]
       else
         [((4 # 10)%Q, "rgba(0, 0, 255, 0.4)");
          ((6 # 10)%Q, "rgba(0, 255, 0, 0.6)");
          ((8 # 10)%Q, "rgba(255, 255, 0, 0.8)");
          (1%Q, "rgba(255, 0, 0, 1)")];
     maxZoom := 10 |}.

Definition remove_if_set (l : option HeatLayer) : M unit :=
  match l with
  | Some l => map_removeLayer l
  | None => mret tt
  end.

Definition updateMapLayers : M unit :=
  hl ← gets heatLayer;
  remove_if_set hl ;;
  wl ← gets windLayer;
  remove_if_set wl ;;
  activeButton ← active_textContent;
  pts ← sample_loop activeButton 50 [];
  layer ← L_heatLayer pts
            (if Js.includes activeButton "Temperature"
             then temperature_options
             else other_options activeButton);
  map_addLayer (Heat layer) ;;
  modify (set_heatLayer (Some layer)).

Definition showTemperatureMap : M unit :=
  setActiveButton "ğŸŒ¡ï¸ Temperature" ;; updateMapLayers.

Definition showWindMap : M unit :=
  setActiveButton "ğŸ’¨ Wind Flow" ;; updateMapLayers.

Definition showPrecipitationMap : M unit :=
  setActiveButton "ğŸ’§ Precipitation" ;; updateMapLayers.

(** *** Rendering *)

Definition displayCurrentWeather (current : Current.t)
    (cityName country : option string) : M unit :=
  let temp := Js.Math_round (Current.temperature_2m current) in
  let feelsLike := Js.Math_round (Current.apparent_temperature current) in
  let humidity := Current.relative_humidity_2m current in
  let windSpeed := Current.wind_speed_10m current in
  let windDeg := Current.wind_direction_10m current in
  let weatherCode := Current.weather_code current in
  let weatherInfo := getWeatherInfo weatherCode in
  modify (set_currentWeather
    [SummaryBlock
       {| Summary.cityName := cityName; Summary.country := country;
          Summary.temp := temp; Summary.info := weatherInfo;
          Summary.feelsLike := feelsLike; Summary.humidity := humidity;
          Summary.windSpeed := windSpeed; Summary.windDeg := windDeg;
          Summary.windLabel := getWindDirection windDeg |}]).

(** [daily.field[i]]: a [TypeError] when [daily] or the array is
    [undefined], [undefined] (here [None]) past the end of the array. *)
Definition daily_get {A} (daily : option Daily.t)
    (field : Daily.t -> option (list A)) (i : Z) : M (option A) :=
  match daily ≫= field with
  | Some arr => mret (Js.array_get arr i)
  | None => throw (TypeError "Cannot read properties of undefined")
  end.

(** The card built by one round of the loop of [displayForecast].
    [Math.round(undefined)] is [NaN] and [weatherMap[undefined]] is
    absent; both are [None]-propagating here. *)
Definition forecast_card (daily : option Daily.t) (i : Z) : M Card.t :=
  date ← daily_get daily Daily.time i;
  let dayName := weekday_short host date in
  maxTemp ← daily_get daily Daily.temperature_2m_max i;
  minTemp ← daily_get daily Daily.temperature_2m_min i;
  weatherCode ← daily_get daily Daily.weather_code i;
  windSpeed ← daily_get daily Daily.wind_speed_10m_max i;
  precipitation ← daily_get daily Daily.precipitation_sum i;
  let weatherInfo := from_option getWeatherInfo unknownInfo weatherCode in
  mret {| Card.dayName := dayName;
          Card.date := getDate host date;
          Card.month := (fun m => m + 1) <$> getMonth host date;
          Card.info := weatherInfo;
          Card.maxTemp := Js.Math_round <$> maxTemp;
          Card.minTemp := Js.Math_round <$> minTemp;
          Card.windSpeed := windSpeed;
          Card.precipitation := precipitation |}.

Definition forecast_appendChild (c : Card.t) : M unit :=
  modify (fun s => set_forecast (forecast s ++ [ForecastCard c]) s).

(** [for (let i = ..; i <= 5; i++) { ... forecastDiv.appendChild(..) }],
    entered at index [i] with [n] rounds left to run. *)
Fixpoint forecast_loop (daily : option Daily.t) (i : Z) (n : nat) : M unit :=
  match n with
  | O => mret tt
  | S n' => c ← forecast_card daily i;
            forecast_appendChild c ;;
            forecast_loop daily (i + 1) n'
  end.

Definition displayForecast (daily : option Daily.t) : M unit :=
  modify (set_forecast []) ;;
  forecast_loop daily 1 5.

(** *** Lookups *)

Definition getWeatherData (la lo : Q) (cityName country : option string)
  : M unit :=
  try_catch
    ('(current, daily) ← fetch_weather (ForecastAt la lo);
     match current with
     | None => throw (Error "No weather data available")
     | Some current =>
         displayCurrentWeather current cityName country ;;
         displayForecast daily
     end)
    (fun error =>
       console_error "Error fetching weather data:" ;;
       showError "Error fetching weather data. Please try again.").

Definition searchWeather : M unit :=
  cityInput ← gets (fun s => Js.trim (cityInput s));
  match cityInput with
  | [] => showError "Please enter a city name"
  | _ :: _ =>
      showLoading ;;
      try_catch
        (name ← encodeURIComponent cityInput;
         results ← fetch_geocoding (GeocodeByName name);
         match results with
         | None | Some [] =>
             showError "City not found. Please try another city."
         | Some (r :: _) =>
             let latitude := GeoResult.latitude r in
             let longitude := GeoResult.longitude r in
             modify (set_center latitude longitude) ;;
             getWeatherData latitude longitude
                            (GeoResult.name r) (GeoResult.country r) ;;
             map_setView (latitude, longitude) 10 ;;
             updateMapLayers
         end)
        (fun error =>
           console_error "Error fetching weather data:" ;;
           showError "Error fetching weather data. Please try again.")
  end.

(** [data.results?.[0]?.field]. *)
Definition first_field (results : option (list GeoResult.t))
    (field : GeoResult.t -> option string) : option string :=
  match results with
  | Some (r :: _) => field r
  | _ => None
  end.

(** The success callback handed to [getCurrentPosition]. *)
Definition on_position (latitude longitude : Q) : M unit :=
  modify (set_center latitude longitude) ;;
  try_catch
    (la ← gets currentLat;
     lo ← gets currentLon;
     results ← fetch_geocoding (GeocodeByCoordinate la lo);
     let cityName := Js.or_else (first_field results GeoResult.name)
                                "Your Location" in
     let country := Js.or_else (first_field results GeoResult.country) "" in
     la ← gets currentLat;
     lo ← gets currentLon;
     getWeatherData la lo (Some cityName) (Some country) ;;
     la ← gets currentLat;
     lo ← gets currentLon;
     map_setView (la, lo) 10 ;;
     updateMapLayers)
    (fun error =>
       console_error "Error getting location name:" ;;
       la ← gets currentLat;
       lo ← gets currentLon;
       getWeatherData la lo (Some "Your Location") (Some "")).

Definition getCurrentLocation : M unit :=
  match geolocation host with
  | Some outcome =>
      showLoading ;;
      match outcome with
      | Position latitude longitude => on_position latitude longitude
      | PositionError message =>
          showError ("Error getting location: " ++ message)%string
      end
  | None => showError "Geolocation is not supported by this browser."
  end.

(** *** Start-up *)

Definition initMap : M unit :=
  la ← gets currentLat;
  lo ← gets currentLon;
  modify (set_leaflet_map
            (Some {| center := (la, lo); zoom := 10; layers := [] |})) ;;
  map_addLayer (TileLayer "https://{s}.tile.openstreetmap.org/{z}/{x}/{y}.png") ;;
  showTemperatureMap.

Definition initApp : M unit :=
  initMap ;; searchWeather.

End Script.

(** The globals as the script declares them, on a page whose input field
    holds [input], whose two regions hold [summary0] and [forecast0] and
    whose map controls are [bs]. *)
Definition startup (input : Js.ustring) (summary0 forecast0 : list Node)
    (bs : list Button) : State :=
  {| leaflet_map := None;
     currentLat := 51.5074; currentLon := -0.1278;
     heatLayer := None; windLayer := None;
     cityInput := input;
     currentWeather := summary0; forecast := forecast0;
     buttons := bs; console := []; requests := [];
     draws := 0; stamps := 0 |}.

(** ** Vocabulary of the statements *)

(** The codes enumerated by the catalog. *)
Definition catalog_codes : list Z :=
  [0; 1; 2; 3; 45; 48; 51; 53; 55; 61; 63; 65; 80; 81; 82; 95; 96].

Inductive OverlayMode := Temperature | Wind | Precipitation.

(** The mode that a control's label selects. *)
Definition active_mode (label : string) : OverlayMode :=
  if Js.includes label "Temperature" then Temperature
  else if Js.includes label "Wind" then Wind
  else Precipitation.

(** Intensity bounds of a mode. *)
Definition mode_range (m : OverlayMode) : Q * Q :=
  match m with
  | Temperature => (15, 30)
  | Wind => (0, 10)
  | Precipitation => (0, 5)
  end%Q.

(** The forecast card for one day's entries of the parallel arrays. *)
Definition entry_card (host : Host) (t : string) (tmax tmin : Q) (code : Z)
    (wind precip : Q) : Card.t :=
  {| Card.dayName := weekday_short host (Some t);
     Card.date := getDate host (Some t);
     Card.month := (fun m => m + 1) <$> getMonth host (Some t);
     Card.info := getWeatherInfo code;
     Card.maxTemp := Some (Js.Math_round tmax);
     Card.minTemp := Some (Js.Math_round tmin);
     Card.windSpeed := Some wind;
     Card.precipitation := Some precip |}.

(** A sample lies within the jitter of the center [(la, lo)] and within
    the intensity bounds of mode [m]. *)
Definition well_placed (la lo : Q) (m : OverlayMode) (p : Point) : Prop :=
  (- (1 # 10) <= lat p - la /\ lat p - la < 1 # 10
   /\ - (1 # 10) <= lon p - lo /\ lon p - lo < 1 # 10
   /\ fst (mode_range m) <= intensity p
   /\ intensity p <= snd (mode_range m))%Q.

(** [Math.random] yields numbers in [0, 1). *)
Definition unit_interval (host : Host) : Prop :=
  forall n : nat, (0 <= random host n /\ random host n < 1)%Q.

(** The layers of a map once the layer held by a global, if any, has been
    removed. *)
Definition without (l : option HeatLayer) (ls : list Layer) : list Layer :=
  match l with
  | Some l => filter (fun x => same_layer l x = false) ls
  | None => ls
  end.

(** The overlay layers among the layers of a map. *)
Definition heat_layers (ls : list Layer) : list HeatLayer :=
  omap (fun x => match x with Heat l => Some l | TileLayer _ => None end) ls.

(** The page after [updateMapLayers] has put [layer] on map [m]. *)
Definition overlay_replaced (m : LeafletMap) (layer : HeatLayer) (s : State)
  : State :=
  set_heatLayer (Some layer)
    (set_leaflet_map
       (Some {| center := center m; zoom := zoom m;
                layers := without (windLayer s)
                            (without (heatLayer s) (layers m))
                          ++ [Heat layer] |})
       (set_stamps (S (stamps s)) (set_draws (150 + draws s) s))).

(** The fields of the page that map operations leave alone. *)
Definition same_display (s s' : State) : Prop :=
  currentWeather s' = currentWeather s /\ forecast s' = forecast s
  /\ currentLat s' = currentLat s /\ currentLon s' = currentLon s
  /\ requests s' = requests s /\ cityInput s' = cityInput s.

(** An action relates every state to the state it leaves behind, however
    it completes. *)
Definition preserves {A} (R : State -> State -> Prop) (m : M A) : Prop :=
  forall s : State, R s (final (m s)).

(** Every array of the [daily] block is present. *)
Definition daily_complete (daily : option Daily.t) : bool :=
  match daily with
  | Some d =>
      bool_decide (is_Some (Daily.time d))
      && bool_decide (is_Some (Daily.temperature_2m_max d))
      && bool_decide (is_Some (Daily.temperature_2m_min d))
      && bool_decide (is_Some (Daily.weather_code d))
      && bool_decide (is_Some (Daily.wind_speed_10m_max d))
      && bool_decide (is_Some (Daily.precipitation_sum d))
  | None => false
  end.

(** The weather answer cannot be rendered in full: the request failed,
    the [current] block is missing, or a [daily] array is. *)
Definition weather_fails (o : WeatherOutcome) : bool :=
  match o with
  | WeatherThrows _ => true
  | WeatherJson None _ => true
  | WeatherJson (Some _) daily => negb (daily_complete daily)
  end.

Definition blank (text : Js.ustring) : Prop :=
  Forall (fun c => Js.is_white_space c = true) text.

Definition fetch_error_message : string :=
  "Error fetching weather data. Please try again.".

(** The page as [searchWeather] leaves it when it hands the first result
    [r] of the geocoder to [getWeatherData]. *)
Definition resolved (q : Js.ustring) (r : GeoResult.t) (s : State) : State :=
  set_center (GeoResult.latitude r) (GeoResult.longitude r)
    (set_requests (requests s ++ [GeocodeByName q])
       (set_forecast [LoadingDiv "Loading forecast..."]
          (set_currentWeather [LoadingDiv "Loading weather data..."] s))).

(** The fields of the page that rendering and fetching leave alone. *)
Definition same_map (s s' : State) : Prop :=
  leaflet_map s' = leaflet_map s /\ buttons s' = buttons s
  /\ heatLayer s' = heatLayer s /\ windLayer s' = windLayer s
  /\ currentLat s' = currentLat s /\ currentLon s' = currentLon s
  /\ cityInput s' = cityInput s.

(** The page after [getWeatherData] has reported a failure; [shown] is the
    forecast region at that point. *)
Definition fetch_failed (la lo : Q) (shown : list Node) (s : State) : State :=
  set_currentWeather [ErrorDiv fetch_error_message]
    (set_console (console s ++ ["Error fetching weather data:"])
       (set_forecast shown
          (set_requests (requests s ++ [ForecastAt la lo]) s))).

(** The page right after a submitted lookup has logged its geocoding
    request for [q]. *)
Definition submitted (q : Js.ustring) (s : State) : State :=
  set_requests (requests s ++ [GeocodeByName q])
    (set_forecast [LoadingDiv "Loading forecast..."]
       (set_currentWeather [LoadingDiv "Loading weather data..."] s)).

(** How a submitted name lookup can fail, as decided by the answers of
    the two collaborators. *)
Inductive Failure :=
| GeocodingFailed        (* the geocoding request threw *)
| CityNotFound           (* no geocoding match *)
| ForecastFailed         (* the forecast request threw or lacks [current] *)
| RenderFailed.          (* a [daily] array is missing *)

Definition lookup_failure (host : Host) (s : State) : option Failure :=
  let q := Js.trim (cityInput s) in
  match geocoding_api host (requests s ++ [GeocodeByName q]) with
  | GeoThrows _ => Some GeocodingFailed
  | GeoJson None | GeoJson (Some []) => Some CityNotFound
  | GeoJson (Some (r :: _)) =>
      match weather_api host
              (requests s ++ [GeocodeByName q;
                              ForecastAt (GeoResult.latitude r)
                                         (GeoResult.longitude r)]) with
      | WeatherThrows _ | WeatherJson None _ => Some ForecastFailed
      | WeatherJson (Some _) daily =>
          if daily_complete daily then None else Some RenderFailed
      end
  end.

Definition failure_message (f : Failure) : string :=
  match f with
  | CityNotFound => "City not found. Please try another city."
  | _ => fetch_error_message
  end.

(** What the forecast region holds after a failed lookup. *)
Definition forecast_after (f : Failure) : list Node :=
  match f with
  | RenderFailed => []
  | _ => [LoadingDiv "Loading forecast..."]
  end.

(** The forecast region after a failed [getWeatherData], given what it
    held [before]: rendering had already cleared it when the [current]
    block was there. *)
Definition shown_after_failure (o : WeatherOutcome) (before : list Node)
  : list Node :=
  match o with
  | WeatherJson (Some _) _ => []
  | _ => before
  end.

(** The first entry of a geocoding answer, if it has one. *)
Definition first_result (o : GeoOutcome) : option GeoResult.t :=
  match o with
  | GeoJson (Some (r :: _)) => Some r
  | _ => None
  end.

(** The answer carries no usable place name: the request failed, there is
    no first entry, or its name is missing or empty. *)
Definition unnamed (o : GeoOutcome) : Prop :=
  match first_result o with
  | Some r => GeoResult.name r = None \/ GeoResult.name r = Some ""
  | None => True
  end.

(** The country of the first entry when it has a non-empty one, else the
    empty string. *)
Definition reverse_country (o : GeoOutcome) : string :=
  match first_result o with
  | Some r => Js.or_else (GeoResult.country r) ""
  | None => ""
  end.

(** The label that [showTemperatureMap] activates. *)
Definition temperature_label : string := "ğŸŒ¡ï¸ Temperature".

(** [setActiveButton] applied to a list of controls. *)
Definition activate (label : string) (bs : list Button) : list Button :=
  List.map (fun btn => {| textContent := textContent btn;
                          active := bool_decide (textContent btn = label) |})
           bs.

(** ** A sample world *)

(** Code units of an ASCII text. *)
Definition utf16 (s : string) : Js.ustring :=
  (fun c => Ascii.N_of_ascii c) <$> String.list_ascii_of_string s.

(** The user edits the input field. *)
Definition type_input (text : Js.ustring) (s : State) : State :=
  {| leaflet_map := leaflet_map s; currentLat := currentLat s;
     currentLon := currentLon s;
     heatLayer := heatLayer s; windLayer := windLayer s;
     cityInput := text; currentWeather := currentWeather s;
     forecast := forecast s; buttons := buttons s; console := console s;
     requests := requests s; draws := draws s; stamps := stamps s |}.

Definition london : GeoResult.t :=
  {| GeoResult.latitude := 51.50853; GeoResult.longitude := -0.12574;
     GeoResult.name := Some "London";
     GeoResult.country := Some "United Kingdom" |}.

Definition paris : GeoResult.t :=
  {| GeoResult.latitude := 48.85341; GeoResult.longitude := 2.3488;
     GeoResult.name := Some "Paris"; GeoResult.country := Some "France" |}.

Definition sample_current : Current.t :=
  {| Current.temperature_2m := 12.5; Current.apparent_temperature := 11.4;
     Current.relative_humidity_2m := 80; Current.wind_speed_10m := 14.3;
     Current.wind_direction_10m := 250; Current.weather_code := 3 |}.

Definition sample_daily : Daily.t :=
  {| Daily.time := Some ["2024-05-01"; "2024-05-02"; "2024-05-03";
                         "2024-05-04"; "2024-05-05"; "2024-05-06"];
     Daily.temperature_2m_max := Some [14.4; 15.5; 16.1; 13.9; 12.2; 17]%Q;
     Daily.temperature_2m_min := Some [8.1; 9; 9.5; 7.7; 6.4; 10.2]%Q;
     Daily.weather_code := Some [3; 61; 2; 80; 45; 0];
     Daily.wind_speed_10m_max := Some [20.1; 18; 12.5; 25; 9.9; 11]%Q;
     Daily.precipitation_sum := Some [0; 4.2; 0; 1.1; 0; 0]%Q |}.

(** The map controls, labelled as [setActiveButton] expects them. *)
Definition page_controls : list Button :=
  [ {| textContent := "ğŸŒ¡ï¸ Temperature"; active := false |};
    {| textContent := "ğŸ’¨ Wind Flow"; active := false |};
    {| textContent := "ğŸ’§ Precipitation"; active := false |} ].

(** A geocoder that knows London and Paris by name and answers reverse
    requests with [reverse]. *)
Definition world_geocoding (reverse : GeoOutcome) (log : list Request)
  : GeoOutcome :=
  match last log with
  | Some (GeocodeByName n) =>
      if bool_decide (n = utf16 "London") then GeoJson (Some [london])
      else if bool_decide (n = utf16 "Paris") then GeoJson (Some [paris])
      else GeoJson None
  | Some (GeocodeByCoordinate _ _) => reverse
  | _ => GeoThrows (FetchFailure "Failed to fetch")
  end.

Definition is_forecast (r : Request) : bool :=
  match r with ForecastAt _ _ => true | _ => false end.

(** A weather service that answers the first forecast request and is
    unreachable afterwards. *)
Definition world_weather (log : list Request) : WeatherOutcome :=
  if Nat.eqb (length (List.filter is_forecast log)) 1
  then WeatherJson (Some sample_current) (Some sample_daily)
  else WeatherThrows (FetchFailure "Failed to fetch").

Definition world (reverse : GeoOutcome) : Host :=
  {| geocoding_service := world_geocoding reverse;
     weather_api := world_weather;
     random := fun n => if Nat.even n then 0%Q else (3 # 4)%Q;
     geolocation := Some (Position 40.7128 (-74.006));
     weekday_short := fun t => default "Invalid Date" t;
     getDate := fun t => match t with Some _ => Some 1 | None => None end;
     getMonth := fun t => match t with Some _ => Some 4 | None => None end |}.

(** The page once it has loaded with [text] in the input field. *)
Definition loaded_page (text : string) : State :=
  final (initApp (world (GeoJson None))
                 (startup (utf16 text) [] [] page_controls)).

(** The London page with "Paris" typed into the input field. *)
Definition paris_query : State :=
  type_input (utf16 "Paris") (loaded_page "London").

Definition temperature_control : Button :=
  {| textContent := "ğŸŒ¡ï¸ Temperature"; active := true |}.

(** A reverse geocoding answer whose only entry has a country but no
    name, and one whose entry has an empty name. *)
Definition nameless_entry : GeoOutcome :=
  GeoJson (Some [ {| GeoResult.latitude := 40.7128;
                     GeoResult.longitude := -74.006;
                     GeoResult.name := None;
                     GeoResult.country := Some "United States" |} ]).

Definition empty_name_entry : GeoOutcome :=
  GeoJson (Some [ {| GeoResult.latitude := 40.7128;
                     GeoResult.longitude := -74.006;
                     GeoResult.name := Some "";
                     GeoResult.country := Some "United States" |} ]).

(** ** Vocabulary of the further properties *)

(** Sample number [i] of a call of [updateMapLayers] that starts at draw
    [d] of the random stream, around the center [(la, lo)]. *)
Definition sample_at (host : Host) (label : string) (la lo : Q) (d i : nat)
  : Point :=
  {| lat := (la + (random host (0 + 3 * i + d) - (1 # 2)) * (2 # 10))%Q;
     lon := (lo + (random host (1 + 3 * i + d) - (1 # 2)) * (2 # 10))%Q;
     intensity :=
       match active_mode label with
       | Temperature => (random host (2 + 3 * i + d) * 15 + 15)%Q
       | Wind => (random host (2 + 3 * i + d) * 10)%Q
       | Precipitation => (random host (2 + 3 * i + d) * 5)%Q
       end |}.

(** The label that each mode handler activates, and the handlers by mode. *)
Definition mode_label (mode : OverlayMode) : string :=
  match mode with
  | Temperature => "ğŸŒ¡ï¸ Temperature"
  | Wind => "ğŸ’¨ Wind Flow"
  | Precipitation => "ğŸ’§ Precipitation"
  end.

Definition show_mode (host : Host) (mode : OverlayMode) : M unit :=
  match mode with
  | Temperature => showTemperatureMap host
  | Wind => showWindMap host
  | Precipitation => showPrecipitationMap host
  end.



(** A triple for page actions: from a state satisfying [P], a normal
    completion satisfies [Q] and an exceptional one [E]. *)
Definition hoare {A} (P : State -> Prop) (m : M A)
    (Q : A -> State -> Prop) (E : State -> Prop) : Prop :=
  forall s : State,
    P s -> match m s with
           | Normal a s' => Q a s'
           | Throw _ s' => E s'
           end.

(** The map shows at most one overlay layer, and one that it shows is the
    layer held by the global [heatLayer]. *)
Definition single_overlay (s : State) : Prop :=
  match leaflet_map s with
  | Some m => heat_layers (layers m) = []
              \/ heat_layers (layers m) = option_list (heatLayer s)
  | None => True
  end.

(** The map shows no overlay layer. *)
Definition no_overlay (s : State) : Prop :=
  match leaflet_map s with
  | Some m => heat_layers (layers m) = []
  | None => True
  end.

(** A page whose only map control is the temperature one, loaded with
    "London", and the same page once a handler has asked for a label that
    no control carries. *)
Definition temperature_only_page : State :=
  final (initApp (world (GeoJson None))
           (startup (utf16 "London") [] []
              [ {| textContent := temperature_label; active := false |} ])).

Definition deselected_page : State :=
  final (setActiveButton (mode_label Wind) temperature_only_page).

(** A property of the page that holds after an action whenever it held
    before. *)
Definition keeps (I : State -> Prop) (s s' : State) : Prop := I s -> I s'.

(** A page without map controls on which start-up has stopped in
    [initMap]: the map exists, nothing has been requested. *)
Definition bare_page : State :=
  final (initApp (world (GeoJson None))
           (startup (utf16 "London") [] [] [])).

(** Entry [i] of a daily array, [None] when the array or the entry is
    missing. *)
Definition entry {A} (arr : option (list A)) (i : nat) : option A :=
  match arr with
  | Some l => l !! i
  | None => None
  end.

(** Card [c] presents day [i] of the daily block [d]: a missing entry
    shows as an invalid date, a [NaN] temperature, the unknown condition
    or an undefined amount. *)
Definition shows_day (host : Host) (d : Daily.t) (i : nat) (c : Card.t)
  : Prop :=
  Card.dayName c = weekday_short host (entry (Daily.time d) i)
  /\ Card.date c = getDate host (entry (Daily.time d) i)
  /\ Card.month c = (fun m => m + 1) <$> getMonth host (entry (Daily.time d) i)
  /\ Card.info c
     = from_option getWeatherInfo unknownInfo (entry (Daily.weather_code d) i)
  /\ Card.maxTemp c = Js.Math_round <$> entry (Daily.temperature_2m_max d) i
  /\ Card.minTemp c = Js.Math_round <$> entry (Daily.temperature_2m_min d) i
  /\ Card.windSpeed c = entry (Daily.wind_speed_10m_max d) i
  /\ Card.precipitation c = entry (Daily.precipitation_sum d) i.

(** Summary [v] presents the current block [cur] under the given title. *)
Definition presents (cur : Current.t) (cityName country : option string)
    (v : Summary.t) : Prop :=
  Summary.cityName v = cityName /\ Summary.country v = country
  /\ Summary.temp v = Js.Math_round (Current.temperature_2m cur)
  /\ Summary.feelsLike v = Js.Math_round (Current.apparent_temperature cur)
  /\ Summary.humidity v = Current.relative_humidity_2m cur
  /\ Summary.windSpeed v = Current.wind_speed_10m cur
  /\ Summary.windDeg v = Current.wind_direction_10m cur
  /\ Summary.windLabel v = getWindDirection (Current.wind_direction_10m cur)
  /\ Summary.info v = getWeatherInfo (Current.weather_code cur).

(** A daily block whose arrays stop after two days. *)
Definition short_daily : Daily.t :=
  {| Daily.time := Some ["2024-05-01"; "2024-05-02"];
     Daily.temperature_2m_max := Some [14.4; 15.5]%Q;
     Daily.temperature_2m_min := Some [8.1; 9]%Q;
     Daily.weather_code := Some [3; 61];
     Daily.wind_speed_10m_max := Some [20.1; 18]%Q;
     Daily.precipitation_sum := Some [0; 4.2]%Q |}.

(** The sample world with a weather service whose answers lack the
    [current] block. *)
Definition world_without_current : Host :=
  {| geocoding_service := world_geocoding (GeoJson None);
     weather_api := fun _ => WeatherJson None (Some sample_daily);
     random := random (world (GeoJson None));
     geolocation := geolocation (world (GeoJson None));
     weekday_short := weekday_short (world (GeoJson None));
     getDate := getDate (world (GeoJson None));
     getMonth := getMonth (world (GeoJson None)) |}.

(** The page once a device lookup has obtained the position [(la, lo)]
    and logged its reverse geocoding request. *)
Definition located (la lo : Q) (s : State) : State :=
  set_requests (requests s ++ [GeocodeByCoordinate la lo])
    (set_center la lo
       (set_forecast [LoadingDiv "Loading forecast..."]
          (set_currentWeather [LoadingDiv "Loading weather data..."] s))).

(** The sample world on a device that refuses to give its position. *)
Definition world_denied : Host :=
  {| geocoding_service := world_geocoding (GeoJson None);
     weather_api := world_weather;
     random := random (world (GeoJson None));
     geolocation := Some (PositionError "User denied Geolocation");
     weekday_short := weekday_short (world (GeoJson None));
     getDate := getDate (world (GeoJson None));
     getMonth := getMonth (world (GeoJson None)) |}.

(** A reverse geocoding entry with a name, a little off the device
    position of the sample world. *)
Definition new_york : GeoResult.t :=
  {| GeoResult.latitude := 40.71427; GeoResult.longitude := -74.00597;
     GeoResult.name := Some "New York";
     GeoResult.country := Some "United States" |}.

(** ** Bearings in double precision *)

(** The double [n / 4]: a bearing of [n] quarter degrees, which a double
    holds exactly. *)
Definition quarter_degrees (n : Z) : Js.double := Js.of_binary n (-2).

Definition label_eqb (a b : option string) : bool :=
  match a, b with
  | Some x, Some y => String.eqb x y
  | None, None => true
  | _, _ => false
  end.

(** Whether [getWindDirection64] and the exact [getWindDirection] give
    the same label on each of the [count] quarter-degree bearings from
    [from] quarter degrees upwards. *)
Fixpoint labels_agree (from : Z) (count : nat) : bool :=
  match count with
  | O => true
  | S count' =>
      label_eqb (getWindDirection64 (quarter_degrees from))
                (getWindDirection (from # 4))
      && labels_agree (from + 1) count'
  end.

(** The largest double below 11.25, the boundary between "N" and "NNE". *)
Definition below_first_boundary : Js.double :=
  Js.of_binary (45 * 2 ^ 47 - 1) (-49).

(** ** Samples in double precision *)

(** The allowance for the rounding of the sum [center + jitter]: for a
    center within 180 degrees of zero one rounding is below 1e-12. *)
Definition rounding_allowance : Q := 1 # 1000000000000.


(** The doubles of the latitude literals 51.50853 (London as geocoded)
    and 51.5074 (the default center), and the smallest and the largest
    double that [Math.random] can yield. *)
Definition london_latitude64 : Js.double := Js.of_decimal 5150853 100000.
Definition default_latitude64 : Js.double := Js.of_decimal 515074 10000.
Definition smallest_draw64 : Js.double := Js.of_binary 0 0.
Definition largest_draw64 : Js.double := Js.of_binary (2 ^ 53 - 1) (-53).

(** * Properties *)

(** ** WeatherCodeCatalog *)

Lemma weatherMap_absent (code : Z) :
  code ∉ catalog_codes -> weatherMap !! code = None.
Proof.
  intros Hnot. unfold weatherMap.
  apply not_elem_of_list_to_map_1. exact Hnot.
Qed.

(** C9: the catalog lookup is a total function; it maps each of the 17
    enumerated codes to the description and icon of the table, and every
    other code to the "Unknown" sentinel. *)
Theorem getWeatherInfo_catalog :
  (forall code : Z, code ∉ catalog_codes -> getWeatherInfo code = unknownInfo)
  /\ (forall code : Z, code ∈ catalog_codes ->
        weatherMap !! code = Some (getWeatherInfo code))
  /\ description <$> (getWeatherInfo <$> catalog_codes) =
       ["Clear sky"; "Mainly clear"; "Partly cloudy"; "Overcast"; "Fog";
        "Depositing rime fog"; "Light drizzle"; "Moderate drizzle";
        "Dense drizzle"; "Slight rain"; "Moderate rain"; "Heavy rain";
        "Slight rain showers"; "Moderate rain showers";
        "Violent rain showers"; "Thunderstorm"; "Thunderstorm with hail"]
  /\ icon <$> (getWeatherInfo <$> catalog_codes) =
       ["â˜€ï¸"; "ğŸŒ¤ï¸"; "â›…"; "â˜ï¸"; "ğŸŒ«ï¸"; "ğŸŒ«ï¸"; "ğŸŒ¦ï¸"; "ğŸŒ¦ï¸"; "ğŸŒ¦ï¸";
        "ğŸŒ§ï¸"; "ğŸŒ§ï¸"; "â›ˆï¸"; "ğŸŒ¦ï¸"; "ğŸŒ§ï¸"; "â›ˆï¸"; "â›ˆï¸"; "â›ˆï¸"]
  /\ unknownInfo = {| description := "Unknown"; icon := "â“" |}.
Proof.
  split; [|split; [|split; [|split]]].
  - intros code Hnot. unfold getWeatherInfo.
    by rewrite (weatherMap_absent code Hnot).
  - intros code Hin. unfold catalog_codes in Hin.
    repeat (apply elem_of_cons in Hin as [-> | Hin]; [vm_compute; reflexivity|]).
    by apply elem_of_nil in Hin.
  - vm_compute. reflexivity.
  - vm_compute. reflexivity.
  - reflexivity.
Qed.

Lemma getWeatherInfo_catalog_witness :
  getWeatherInfo 4 = unknownInfo
  /\ weatherMap !! 95 = Some (getWeatherInfo 95).
Proof.
  destruct getWeatherInfo_catalog as (Hout & Hin & _).
  split.
  - apply Hout. unfold catalog_codes. intros H.
    repeat (apply elem_of_cons in H as [H | H]; [discriminate H|]).
    by apply elem_of_nil in H.
  - apply Hin. unfold catalog_codes. repeat constructor.
Defined.

(** ** DirectionResolver *)

Lemma Qfloor_unique (x : Q) (z : Z) :
  (inject_Z z <= x)%Q -> (x < inject_Z (z + 1))%Q -> Qfloor x = z.
Proof.
  intros Hlo Hhi.
  pose proof (Qfloor_le x) as Hfl.
  pose proof (Qlt_floor x) as Hfu.
  assert (Hlt1 : (inject_Z z < inject_Z (Qfloor x + 1))%Q)
    by (eapply Qle_lt_trans; eassumption).
  assert (Hlt2 : (inject_Z (Qfloor x) < inject_Z (z + 1))%Q)
    by (eapply Qle_lt_trans; eassumption).
  rewrite <- Zlt_Qlt in Hlt1, Hlt2. lia.
Qed.










(** *** Double precision *)

Lemma label_eqb_eq (a b : option string) : label_eqb a b = true -> a = b.
Proof.
  destruct a as [x|], b as [y|]; simpl; try discriminate; [|reflexivity].
  intros H. apply String.eqb_eq in H. by subst.
Qed.

Lemma labels_agree_spec (count : nat) :
  forall from n : Z,
    labels_agree from count = true ->
    from <= n < from + Z.of_nat count ->
    getWindDirection64 (quarter_degrees n) = getWindDirection (n # 4).
Proof.
  induction count as [|count IH]; intros from n Hall Hn; [lia|].
  cbn [labels_agree] in Hall. apply andb_prop in Hall as [Hhere Hrest].
  destruct (Z.eq_dec n from) as [-> | Hne].
  - by apply label_eqb_eq.
  - apply (IH (from + 1)); [exact Hrest | lia].
Qed.

(** Checked on each of the 11521 bearings: within four turns of zero, the
    division in double precision rounds a quarter-degree bearing to the
    same sector as exact arithmetic does. *)
Lemma labels_agree_four_turns : labels_agree (-5760) (Z.to_nat 11521) = true.
Proof. vm_compute. reflexivity. Qed.

Lemma getWindDirection64_exact (n : Z) :
  -5760 <= n <= 5760 ->
  getWindDirection64 (quarter_degrees n) = getWindDirection (n # 4).
Proof.
  intros Hn. apply (labels_agree_spec _ _ _ labels_agree_four_turns).
  rewrite Z2Nat.id; lia.
Qed.





(** ** Forecast rendering *)

Ltac run :=
  unfold mbind, M_bind, mret, M_ret, gets, modify, throw, try_catch; simpl.

Ltac at_least_six l H :=
  do 6 (destruct l as [|? l]; [simpl in H; lia|]); clear H.

(** C1: when every daily array has at least 6 entries, [displayForecast]
    replaces the forecast region by exactly 5 cards; the k-th card (k =
    0..4) is built from the entries at index k+1 of the arrays, so index 0
    is never read. *)
Theorem displayForecast_five_cards (host : Host)
    (ts : list string) (mx mn : list Q) (wc : list Z) (ws pr : list Q)
    (s : State) :
  (6 <= length ts)%nat -> (6 <= length mx)%nat -> (6 <= length mn)%nat ->
  (6 <= length wc)%nat -> (6 <= length ws)%nat -> (6 <= length pr)%nat ->
  exists cards : list Card.t,
    displayForecast host
      (Some {| Daily.time := Some ts;
               Daily.temperature_2m_max := Some mx;
               Daily.temperature_2m_min := Some mn;
               Daily.weather_code := Some wc;
               Daily.wind_speed_10m_max := Some ws;
               Daily.precipitation_sum := Some pr |}) s
    = Normal tt (set_forecast (ForecastCard <$> cards) s)
    /\ length cards = 5%nat
    /\ forall k : nat, (k < 5)%nat ->
         exists t a b c w p,
           ts !! S k = Some t /\ mx !! S k = Some a /\ mn !! S k = Some b
           /\ wc !! S k = Some c /\ ws !! S k = Some w /\ pr !! S k = Some p
           /\ cards !! k = Some (entry_card host t a b c w p).
Proof.
  intros Hts Hmx Hmn Hwc Hws Hpr.
  at_least_six ts Hts. at_least_six mx Hmx. at_least_six mn Hmn.
  at_least_six wc Hwc. at_least_six ws Hws. at_least_six pr Hpr.
  eexists [_; _; _; _; _]. split; [|split].
  - unfold displayForecast. run. reflexivity.
  - reflexivity.
  - intros k Hk.
    do 5 (destruct k as [|k];
          [do 6 eexists; repeat split; reflexivity|]).
    lia.
Qed.

(** ** Sequencing *)

Lemma bind_normal {A B} (m : M A) (f : A -> M B) (s s' : State) (a : A) :
  m s = Normal a s' -> (m ≫= f) s = f a s'.
Proof. intros H. unfold mbind, M_bind. by rewrite H. Qed.

Lemma bind_throw {A B} (m : M A) (f : A -> M B) (s s' : State) (e : Exn) :
  m s = Throw e s' -> (m ≫= f) s = Throw e s'.
Proof. intros H. unfold mbind, M_bind. by rewrite H. Qed.

Lemma log_snoc (log : list Request) (a b : Request) :
  (log ++ [a]) ++ [b] = log ++ [a; b].
Proof. by rewrite <- app_assoc. Qed.

(** ** Overlay sampling *)

Section Overlay.

Variable host : Host.
Hypothesis Hrandom : unit_interval host.

Lemma sample_point_spec (label : string) (s : State) :
  exists p : Point,
    sample_point host label s = Normal p (set_draws (3 + draws s) s)
    /\ well_placed (currentLat s) (currentLon s) (active_mode label) p.
Proof.
  pose proof (Hrandom (draws s)) as [Ha1 Ha2].
  pose proof (Hrandom (S (draws s))) as [Hb1 Hb2].
  pose proof (Hrandom (S (S (draws s)))) as [Hc1 Hc2].
  unfold sample_point, active_mode, Math_random. run.
  destruct (Js.includes label "Temperature");
    [| destruct (Js.includes label "Wind")];
    (eexists; split; [reflexivity|]);
    unfold well_placed; simpl; repeat split; lra.
Qed.

Lemma sample_loop_spec (label : string) (n : nat) :
  forall (pts : list Point) (s : State),
    Forall (well_placed (currentLat s) (currentLon s) (active_mode label)) pts ->
    exists pts' : list Point,
      sample_loop host label n pts s
      = Normal pts' (set_draws (3 * n + draws s) s)
      /\ length pts' = (length pts + n)%nat
      /\ Forall (well_placed (currentLat s) (currentLon s) (active_mode label))
                pts'.
Proof.
  induction n as [|n IH]; intros pts s Hpts.
  - exists pts. repeat split; [|lia|exact Hpts].
    destruct s; reflexivity.
  - destruct (sample_point_spec label s) as (p & Hp & Hok).
    destruct (IH (pts ++ [p])%list (set_draws (3 + draws s) s)) as (pts' & Hrun & Hlen & Hall).
    { apply Forall_app. split; [exact Hpts | by constructor]. }
    exists pts'. split; [|split].
    + cbn [sample_loop]. rewrite (bind_normal _ _ _ _ _ Hp), Hrun.
      f_equal. unfold set_draws. simpl. f_equal. lia.
    + rewrite Hlen, length_app. simpl. lia.
    + exact Hall.
Qed.

Lemma remove_if_set_spec (o : option HeatLayer) (m : LeafletMap) (s : State) :
  leaflet_map s = Some m ->
  remove_if_set o s
  = Normal tt (set_leaflet_map
                 (Some {| center := center m; zoom := zoom m;
                          layers := without o (layers m) |}) s).
Proof.
  intros Hm. destruct o as [l|]; simpl.
  - unfold map_removeLayer, with_map. run. by rewrite Hm.
  - destruct s, m. simpl in *. by subst.
Qed.

Lemma updateMapLayers_spec (m : LeafletMap) (btn : Button) (s : State) :
  leaflet_map s = Some m ->
  List.find active (buttons s) = Some btn ->
  exists layer : HeatLayer,
    updateMapLayers host s = Normal tt (overlay_replaced m layer s)
    /\ stamp layer = stamps s
    /\ length (points layer) = 50%nat
    /\ Forall (well_placed (currentLat s) (currentLon s)
                           (active_mode (textContent btn)))
              (points layer).
Proof.
  intros Hm Hbtn.
  set (s1 := set_leaflet_map
               (Some {| center := center m; zoom := zoom m;
                        layers := without (heatLayer s) (layers m) |}) s).
  set (s2 := set_leaflet_map
               (Some {| center := center m; zoom := zoom m;
                        layers := without (windLayer s)
                                    (without (heatLayer s) (layers m)) |}) s1).
  destruct (sample_loop_spec (textContent btn) 50 [] s2)
    as (pts & Hrun & Hlen & Hall); [constructor|].
  eexists {| stamp := stamps s; points := pts; options := _ |}.
  split; [|split; [reflexivity | split; [exact Hlen | exact Hall]]].
  unfold updateMapLayers.
  rewrite (bind_normal (gets heatLayer) _ s s _ eq_refl).
  rewrite (bind_normal _ _ s s1 tt (remove_if_set_spec _ m s Hm)).
  rewrite (bind_normal (gets windLayer) _ s1 s1 _ eq_refl).
  rewrite (bind_normal _ _ s1 s2 tt (remove_if_set_spec _ _ s1 eq_refl)).
  assert (Hact : active_textContent s2 = Normal (textContent btn) s2).
  { unfold active_textContent. run. by rewrite Hbtn. }
  rewrite (bind_normal _ _ _ _ _ Hact).
  rewrite (bind_normal _ _ _ _ _ Hrun).
  unfold L_heatLayer, map_addLayer, with_map. run. reflexivity.
Qed.

End Overlay.

Lemma heat_layers_filter (l : HeatLayer) (ls : list Layer) :
  heat_layers (filter (fun x => same_layer l x = false) ls)
  = filter (fun l' => Nat.eqb (stamp l') (stamp l) = false) (heat_layers ls).
Proof.
  induction ls as [|x ls IH]; [reflexivity|].
  destruct x as [url | l'].
  - rewrite filter_cons_True by reflexivity. exact IH.
  - change (heat_layers (Heat l' :: ls)) with (l' :: heat_layers ls).
    destruct (Nat.eqb (stamp l') (stamp l)) eqn:E.
    + rewrite !filter_cons_False by (simpl; rewrite E; discriminate).
      exact IH.
    + rewrite !filter_cons_True by (simpl; exact E).
      change (l' :: heat_layers (filter (fun x => same_layer l x = false) ls)
              = l' :: filter (fun l' => Nat.eqb (stamp l') (stamp l) = false)
                             (heat_layers ls)).
      by rewrite IH.
Qed.

Lemma heat_layers_without_current (l : option HeatLayer) (ls : list Layer) :
  heat_layers ls = option_list l -> heat_layers (without l ls) = [].
Proof.
  intros H. destruct l as [l|]; simpl in *; [|exact H].
  rewrite heat_layers_filter, H, filter_cons, Nat.eqb_refl.
  by rewrite decide_False by discriminate.
Qed.

Lemma heat_layers_without_none (l : option HeatLayer) (ls : list Layer) :
  heat_layers ls = [] -> heat_layers (without l ls) = [].
Proof.
  intros H. destruct l as [l|]; simpl; [|exact H].
  by rewrite heat_layers_filter, H.
Qed.


Lemma world_unit_interval (reverse : GeoOutcome) :
  unit_interval (world reverse).
Proof.
  intros n. simpl. destruct (Nat.even n); split; lra.
Qed.





(** At both of these samples the offset stays within the rounding
    allowance of 0.1 degree. *)
Example sample_coordinate64_allowance :
  (- (1 # 10) - rounding_allowance
   <= Js.to_Q (sample_coordinate64 london_latitude64 smallest_draw64)
      - Js.to_Q london_latitude64)%Q
  /\ (Js.to_Q (sample_coordinate64 default_latitude64 largest_draw64)
      - Js.to_Q default_latitude64
      <= (1 # 10) + rounding_allowance)%Q.
Proof. split; vm_compute; discriminate. Qed.

(** The doubles of the counterexample: the literals round to the nearest
    double, and the draws lie in [0, 1). *)
Example sample_coordinate64_inputs :
  london_latitude64 = SpecFloat.S754_finite false 7249181141075063 (-47)
  /\ default_latitude64 = SpecFloat.S754_finite false 7249022107713221 (-47)
  /\ Js.to_Q smallest_draw64 == 0
  /\ (Js.to_Q largest_draw64 < 1)%Q.
Proof. split; [|split; [|split]]; vm_compute; reflexivity. Qed.

Lemma displayForecast_five_cards_witness :
  exists cards : list Card.t,
    displayForecast (world (GeoJson None)) (Some sample_daily)
                    (loaded_page "")
    = Normal tt (set_forecast (ForecastCard <$> cards) (loaded_page ""))
    /\ length cards = 5%nat
    /\ forall k : nat, (k < 5)%nat ->
         exists t a b c w p,
           ["2024-05-01"; "2024-05-02"; "2024-05-03";
            "2024-05-04"; "2024-05-05"; "2024-05-06"] !! S k = Some t
           /\ [14.4; 15.5; 16.1; 13.9; 12.2; 17]%Q !! S k = Some a
           /\ [8.1; 9; 9.5; 7.7; 6.4; 10.2]%Q !! S k = Some b
           /\ [3; 61; 2; 80; 45; 0] !! S k = Some c
           /\ [20.1; 18; 12.5; 25; 9.9; 11]%Q !! S k = Some w
           /\ [0; 4.2; 0; 1.1; 0; 0]%Q !! S k = Some p
           /\ cards !! k
              = Some (entry_card (world (GeoJson None)) t a b c w p).
Proof.
  apply (displayForecast_five_cards (world (GeoJson None))); simpl; lia.
Defined.

(** ** Frames *)

Section Frames.

Variable R : State -> State -> Prop.
Hypothesis R_refl : forall s, R s s.
Hypothesis R_trans : forall s1 s2 s3, R s1 s2 -> R s2 s3 -> R s1 s3.

Lemma preserves_ret {A} (a : A) : preserves R (mret a).
Proof. intros s. apply R_refl. Qed.

Lemma preserves_throw {A} (e : Exn) : preserves R (@throw A e).
Proof. intros s. apply R_refl. Qed.

Lemma preserves_gets {A} (f : State -> A) : preserves R (gets f).
Proof. intros s. apply R_refl. Qed.

Lemma preserves_modify (g : State -> State) :
  (forall s, R s (g s)) -> preserves R (modify g).
Proof. intros H s. apply H. Qed.

Lemma preserves_bind {A B} (m : M A) (f : A -> M B) :
  preserves R m -> (forall a, preserves R (f a)) -> preserves R (m ≫= f).
Proof.
  intros Hm Hf s. specialize (Hm s). unfold mbind, M_bind.
  destruct (m s) as [a s' | e s']; simpl in *; [|exact Hm].
  eapply R_trans; [exact Hm | apply Hf].
Qed.

Lemma preserves_try {A} (body : M A) (handler : Exn -> M A) :
  preserves R body -> (forall e, preserves R (handler e)) ->
  preserves R (try_catch body handler).
Proof.
  intros Hb Hh s. specialize (Hb s). unfold try_catch.
  destruct (body s) as [a s' | e s']; simpl in *; [exact Hb|].
  eapply R_trans; [exact Hb | apply Hh].
Qed.

End Frames.

Lemma same_display_refl (s : State) : same_display s s.
Proof. by repeat split. Qed.

Lemma same_display_trans (s1 s2 s3 : State) :
  same_display s1 s2 -> same_display s2 s3 -> same_display s1 s3.
Proof.
  intros (a1 & a2 & a3 & a4 & a5 & a6) (b1 & b2 & b3 & b4 & b5 & b6).
  repeat split; congruence.
Qed.

Ltac framed :=
  repeat first
    [ apply (preserves_bind same_display same_display_trans); [|intros ?]
    | apply (preserves_ret same_display same_display_refl)
    | apply (preserves_throw same_display same_display_refl)
    | apply (preserves_gets same_display same_display_refl)
    | apply preserves_modify; intros ?; by repeat split ].

Lemma with_map_frame {A} (f : LeafletMap -> M A) :
  (forall m, preserves same_display (f m)) ->
  preserves same_display (with_map f).
Proof.
  intros Hf. unfold with_map. framed.
  match goal with |- context [match ?x with _ => _ end] => destruct x end;
    [apply Hf | framed].
Qed.

Lemma map_setView_frame (c : Q * Q) (z : Z) :
  preserves same_display (map_setView c z).
Proof. apply with_map_frame. intros m. framed. Qed.

Lemma remove_if_set_frame (o : option HeatLayer) :
  preserves same_display (remove_if_set o).
Proof.
  destruct o as [l|]; simpl; [|framed].
  apply with_map_frame. intros m. framed.
Qed.

Lemma sample_loop_frame (host : Host) (label : string) (n : nat) :
  forall pts, preserves same_display (sample_loop host label n pts).
Proof.
  induction n as [|n IH]; intros pts; cbn [sample_loop]; [framed|].
  apply (preserves_bind same_display same_display_trans); [|intros p; apply IH].
  unfold sample_point.
  assert (Hrand : preserves same_display (Math_random host))
    by (intros s; by repeat split).
  repeat (apply (preserves_bind same_display same_display_trans);
          [first [exact Hrand | framed] | intros ?]).
  repeat match goal with |- context [if ?b then _ else _] => destruct b end;
    framed.
Qed.

Lemma updateMapLayers_frame (host : Host) :
  preserves same_display (updateMapLayers host).
Proof.
  unfold updateMapLayers.
  apply (preserves_bind same_display same_display_trans); [framed | intros hl].
  apply (preserves_bind same_display same_display_trans);
    [apply remove_if_set_frame | intros _].
  apply (preserves_bind same_display same_display_trans); [framed | intros wl].
  apply (preserves_bind same_display same_display_trans);
    [apply remove_if_set_frame | intros _].
  apply (preserves_bind same_display same_display_trans).
  { unfold active_textContent. framed.
    match goal with |- context [match ?x with _ => _ end] => destruct x end;
      framed. }
  intros label.
  apply (preserves_bind same_display same_display_trans);
    [apply sample_loop_frame | intros pts].
  apply (preserves_bind same_display same_display_trans).
  { intros s. by repeat split. }
  intros layer.
  apply (preserves_bind same_display same_display_trans).
  { apply with_map_frame. intros m. framed. }
  intros _. framed.
Qed.

(** ** Blank queries *)

Lemma trimStart_blank (text : Js.ustring) :
  blank text -> Js.trimStart text = [].
Proof.
  induction 1 as [|c text Hc _ IH]; [reflexivity|].
  simpl. by rewrite Hc.
Qed.

Lemma trim_blank (text : Js.ustring) : blank text -> Js.trim text = [].
Proof.
  intros H. unfold Js.trim, Js.trimEnd. by rewrite (trimStart_blank text H).
Qed.

Lemma trimStart_nil_blank (text : Js.ustring) :
  Js.trimStart text = [] -> blank text.
Proof.
  induction text as [|c text IH]; intros H; [constructor|].
  simpl in H. destruct (Js.is_white_space c) eqn:E; [|discriminate].
  constructor; [exact E | by apply IH].
Qed.

Lemma trim_nil_blank (text : Js.ustring) : Js.trim text = [] -> blank text.
Proof.
  unfold Js.trim, Js.trimEnd. intros H.
  apply trimStart_nil_blank.
  apply (f_equal (@rev N)) in H. rewrite rev_involutive in H. simpl in H.
  destruct (Js.trimStart text) as [|c rest] eqn:E; [reflexivity|].
  exfalso.
  assert (Hb : blank (rev (c :: rest))) by (by apply trimStart_nil_blank).
  assert (Hc : Js.is_white_space c = true).
  { unfold blank in Hb. rewrite Forall_forall in Hb. apply Hb.
    apply list_elem_of_In, in_rev. rewrite rev_involutive. by left. }
  clear -E Hc. induction text as [|d text IH]; [discriminate|].
  simpl in E. destruct (Js.is_white_space d) eqn:Ed; [by apply IH|].
  congruence.
Qed.

Lemma searchWeather_blank_run (host : Host) (s : State) :
  blank (cityInput s) ->
  searchWeather host s
  = Normal tt (set_currentWeather [ErrorDiv "Please enter a city name"] s).
Proof.
  intros Hblank. unfold searchWeather. run.
  by rewrite (trim_blank _ Hblank).
Qed.

(** C7: when the input field holds nothing but white space, [searchWeather]
    only writes "Please enter a city name" into the summary region: no
    request is issued and nothing else of the page or session changes. *)
Theorem searchWeather_blank (host : Host) (s : State) :
  blank (cityInput s) ->
  searchWeather host s
  = Normal tt (set_currentWeather [ErrorDiv "Please enter a city name"] s)
  /\ requests (final (searchWeather host s)) = requests s
  /\ currentLat (final (searchWeather host s)) = currentLat s
  /\ currentLon (final (searchWeather host s)) = currentLon s
  /\ leaflet_map (final (searchWeather host s)) = leaflet_map s
  /\ heatLayer (final (searchWeather host s)) = heatLayer s
  /\ forecast (final (searchWeather host s)) = forecast s.
Proof.
  intros Hblank. rewrite (searchWeather_blank_run host s Hblank).
  by repeat split.
Qed.

Lemma searchWeather_blank_witness :
  searchWeather (world (GeoJson None))
                (type_input [32%N; 9%N; 160%N] (loaded_page "London"))
  = Normal tt (set_currentWeather [ErrorDiv "Please enter a city name"]
                 (type_input [32%N; 9%N; 160%N] (loaded_page "London"))).
Proof.
  apply (searchWeather_blank (world (GeoJson None))
           (type_input [32%N; 9%N; 160%N] (loaded_page "London"))).
  repeat constructor.
Defined.

(** ** The weather fetch *)

Lemma forecast_loop_incomplete (host : Host) (daily : option Daily.t)
    (i : Z) (n : nat) (s : State) :
  daily_complete daily = false ->
  exists e : Exn, forecast_loop host daily i (S n) s = Throw e s.
Proof.
  intros Hd. cbn [forecast_loop]. unfold forecast_card, daily_get.
  destruct daily as [[t mx mn wc ws pr]|]; simpl in *;
    [|eexists; reflexivity].
  destruct t, mx, mn, wc, ws, pr; try discriminate Hd;
    eexists; reflexivity.
Qed.

Lemma displayForecast_complete (host : Host) (daily : option Daily.t)
    (s : State) :
  daily_complete daily = true ->
  exists cards : list Card.t,
    displayForecast host daily s
    = Normal tt (set_forecast (ForecastCard <$> cards) s)
    /\ length cards = 5%nat.
Proof.
  intros Hd.
  destruct daily as [[t mx mn wc ws pr]|]; [|discriminate Hd].
  destruct t, mx, mn, wc, ws, pr; try discriminate Hd.
  eexists [_; _; _; _; _]. split; [|reflexivity].
  unfold displayForecast. run. reflexivity.
Qed.

Lemma getWeatherData_fails (host : Host) (la lo : Q)
    (cityName country : option string) (s : State) :
  weather_fails (weather_api host (requests s ++ [ForecastAt la lo])) = true ->
  getWeatherData host la lo cityName country s
  = Normal tt
      (fetch_failed la lo
         (shown_after_failure
            (weather_api host (requests s ++ [ForecastAt la lo])) (forecast s))
         s).
Proof.
  intros Hfail. unfold getWeatherData, try_catch, fetch_weather.
  unfold mbind at 1. unfold M_bind at 1. cbn [requests set_requests].
  destruct (weather_api host (requests s ++ [ForecastAt la lo]))
    as [e | [cur|] daily]; simpl in Hfail.
  - destruct s; reflexivity.
  - apply negb_true_iff in Hfail.
    rewrite (bind_normal (displayCurrentWeather cur cityName country)
               _ _ _ tt eq_refl).
    unfold displayForecast.
    rewrite (bind_normal (modify (set_forecast [])) _ _ _ tt eq_refl).
    match goal with
    | |- context [forecast_loop host daily 1 5 ?s0] =>
        destruct (forecast_loop_incomplete host daily 1 4 s0 Hfail) as (e & ->)
    end.
    reflexivity.
  - destruct s; reflexivity.
Qed.

Lemma getWeatherData_displays (host : Host) (la lo : Q)
    (cityName country : option string) (s : State) :
  weather_fails (weather_api host (requests s ++ [ForecastAt la lo])) = false ->
  exists (v : Summary.t) (cards : list Card.t),
    getWeatherData host la lo cityName country s
    = Normal tt (set_forecast (ForecastCard <$> cards)
                   (set_currentWeather [SummaryBlock v]
                      (set_requests (requests s ++ [ForecastAt la lo]) s)))
    /\ Summary.cityName v = cityName /\ Summary.country v = country
    /\ length cards = 5%nat.
Proof.
  intros Hok. unfold getWeatherData, try_catch, fetch_weather.
  unfold mbind at 1. unfold M_bind at 1. cbn [requests set_requests].
  destruct (weather_api host (requests s ++ [ForecastAt la lo]))
    as [e | [cur|] daily]; simpl in Hok; try discriminate Hok.
  apply negb_false_iff in Hok.
  rewrite (bind_normal (displayCurrentWeather cur cityName country)
             _ _ _ tt eq_refl).
  match goal with
  | |- context [displayForecast host daily ?s0] =>
      destruct (displayForecast_complete host daily s0 Hok)
        as (cards & -> & Hlen)
  end.
  eexists. exists cards. split; [reflexivity|]. by repeat split.
Qed.

(** [getWeatherData] handles every failure itself. *)
Lemma getWeatherData_returns (host : Host) (la lo : Q)
    (cityName country : option string) (s : State) :
  exists s' : State,
    getWeatherData host la lo cityName country s = Normal tt s'
    /\ same_map s s'
    /\ requests s' = requests s ++ [ForecastAt la lo].
Proof.
  destruct (weather_fails (weather_api host (requests s ++ [ForecastAt la lo])))
    eqn:E.
  - eexists. split; [exact (getWeatherData_fails host la lo cityName country s E)|].
    by repeat split.
  - destruct (getWeatherData_displays host la lo cityName country s E)
      as (v & cards & Hrun & _).
    eexists. split; [exact Hrun|]. by repeat split.
Qed.

(** ** Name lookups *)

(** The geocoding call for a name that cannot be URI-encoded fails with
    the [URIError]; an answer therefore vouches for the name. *)
Lemma geocoding_api_last (host : Host) (log : list Request) (r : Request) :
  geocoding_api host (log ++ [r])
  = if encodable r then geocoding_service host (log ++ [r])
    else GeoThrows (URIError "URI malformed").
Proof. unfold geocoding_api. rewrite last_snoc. reflexivity. Qed.

Lemma geocoding_api_malformed (host : Host) (log : list Request)
    (name : Js.ustring) :
  Js.well_formed name = false ->
  geocoding_api host (log ++ [GeocodeByName name])
  = GeoThrows (URIError "URI malformed").
Proof. intros Hwf. rewrite geocoding_api_last. cbn [encodable]. by rewrite Hwf. Qed.

Lemma geocoding_api_answered (host : Host) (log : list Request)
    (name : Js.ustring) (results : option (list GeoResult.t)) :
  geocoding_api host (log ++ [GeocodeByName name]) = GeoJson results ->
  Js.well_formed name = true.
Proof.
  intros Hgeo. destruct (Js.well_formed name) eqn:Hwf; [reflexivity|].
  rewrite (geocoding_api_malformed host log name Hwf) in Hgeo. discriminate.
Qed.

(** A name that cannot be encoded never reaches the geocoder: the
    [URIError] is caught like a failed fetch, with only the loading
    placeholders written before it. *)
Lemma searchWeather_malformed (host : Host) (s : State) (c : N)
    (q : Js.ustring) :
  Js.trim (cityInput s) = c :: q ->
  Js.well_formed (c :: q) = false ->
  searchWeather host s
  = Normal tt (set_currentWeather [ErrorDiv fetch_error_message]
                 (set_console (console s ++ ["Error fetching weather data:"])
                    (set_forecast [LoadingDiv "Loading forecast..."]
                       (set_currentWeather
                          [LoadingDiv "Loading weather data..."] s)))).
Proof.
  intros Htrim Hwf. unfold searchWeather.
  rewrite (bind_normal (gets (fun s => Js.trim (cityInput s))) _ s s _ eq_refl).
  rewrite Htrim.
  rewrite (bind_normal showLoading _ s _ tt eq_refl).
  unfold try_catch, encodeURIComponent. rewrite Hwf. reflexivity.
Qed.

Section NameLookup.

Variable host : Host.
Variables (s : State) (c : N) (q : Js.ustring).
Hypothesis Htrim : Js.trim (cityInput s) = c :: q.
Hypothesis Hwf : Js.well_formed (c :: q) = true.

Lemma searchWeather_submitted :
  searchWeather host s
  = try_catch
      (match geocoding_api host (requests s ++ [GeocodeByName (c :: q)]) with
       | GeoThrows e => throw e
       | GeoJson None | GeoJson (Some []) =>
           showError "City not found. Please try another city."
       | GeoJson (Some (r :: _)) =>
           modify (set_center (GeoResult.latitude r) (GeoResult.longitude r)) ;;
           getWeatherData host (GeoResult.latitude r) (GeoResult.longitude r)
                          (GeoResult.name r) (GeoResult.country r) ;;
           map_setView (GeoResult.latitude r, GeoResult.longitude r) 10 ;;
           updateMapLayers host
       end)
      (fun _ => console_error "Error fetching weather data:" ;;
                showError fetch_error_message)
      (submitted (c :: q) s).
Proof.
  unfold searchWeather.
  rewrite (bind_normal (gets (fun s => Js.trim (cityInput s))) _ s s _ eq_refl).
  rewrite Htrim.
  rewrite (bind_normal showLoading _ s _ tt eq_refl).
  unfold try_catch.
  rewrite (bind_normal (encodeURIComponent (c :: q)) _ _ _ (c :: q))
    by (unfold encodeURIComponent; rewrite Hwf; reflexivity).
  unfold fetch_geocoding.
  unfold mbind at 1. unfold M_bind at 1. cbn [requests set_requests set_forecast set_currentWeather].
  unfold submitted.
  destruct (geocoding_api host (requests s ++ [GeocodeByName (c :: q)]))
    as [e | [[|r rest]|]]; reflexivity.
Qed.

Lemma searchWeather_geocoding_throws (e : Exn) :
  geocoding_api host (requests s ++ [GeocodeByName (c :: q)]) = GeoThrows e ->
  searchWeather host s
  = Normal tt (set_currentWeather [ErrorDiv fetch_error_message]
                 (set_console (console s ++ ["Error fetching weather data:"])
                    (submitted (c :: q) s))).
Proof.
  intros Hgeo. rewrite searchWeather_submitted, Hgeo. reflexivity.
Qed.

Lemma searchWeather_not_found :
  geocoding_api host (requests s ++ [GeocodeByName (c :: q)]) = GeoJson None
  \/ geocoding_api host (requests s ++ [GeocodeByName (c :: q)]) = GeoJson (Some []) ->
  searchWeather host s
  = Normal tt (set_currentWeather
                 [ErrorDiv "City not found. Please try another city."]
                 (submitted (c :: q) s)).
Proof.
  intros [Hgeo | Hgeo]; rewrite searchWeather_submitted, Hgeo; reflexivity.
Qed.

(** Once the geocoder has produced a first result, the session center is
    committed and the forecast is requested once; whatever the map calls
    that follow do, the regions end as [getWeatherData] left them, or with
    the summary overwritten by the fetch error. *)
Lemma searchWeather_resolved (r : GeoResult.t) (rest : list GeoResult.t) :
  geocoding_api host (requests s ++ [GeocodeByName (c :: q)])
  = GeoJson (Some (r :: rest)) ->
  exists s2 : State,
    getWeatherData host (GeoResult.latitude r) (GeoResult.longitude r)
                   (GeoResult.name r) (GeoResult.country r)
                   (resolved (c :: q) r s)
    = Normal tt s2
    /\ forecast (final (searchWeather host s)) = forecast s2
    /\ currentLat (final (searchWeather host s)) = GeoResult.latitude r
    /\ currentLon (final (searchWeather host s)) = GeoResult.longitude r
    /\ requests (final (searchWeather host s))
       = requests s ++ [GeocodeByName (c :: q);
                        ForecastAt (GeoResult.latitude r)
                                   (GeoResult.longitude r)]
    /\ (currentWeather (final (searchWeather host s)) = currentWeather s2
        \/ currentWeather (final (searchWeather host s))
           = [ErrorDiv fetch_error_message]).
Proof.
  intros Hgeo.
  destruct (getWeatherData_returns host (GeoResult.latitude r)
              (GeoResult.longitude r) (GeoResult.name r) (GeoResult.country r)
              (resolved (c :: q) r s))
    as (s2 & Hrun & (_ & _ & _ & _ & Hla & Hlo & _) & Hlog).
  cbn [resolved requests set_center set_requests] in Hlog.
  rewrite log_snoc in Hlog.
  exists s2. split; [exact Hrun|].
  rewrite searchWeather_submitted, Hgeo. unfold try_catch.
  rewrite (bind_normal (modify _) _ _ _ tt eq_refl).
  change (set_center _ _ (submitted (c :: q) s)) with (resolved (c :: q) r s).
  rewrite (bind_normal _ _ _ _ tt Hrun).
  pose proof (preserves_bind same_display same_display_trans
                (map_setView (GeoResult.latitude r, GeoResult.longitude r) 10)
                (fun _ => updateMapLayers host)
                (map_setView_frame _ _)
                (fun _ => updateMapLayers_frame host) s2)
    as (F1 & F2 & F3 & F4 & F5 & _).
  destruct ((map_setView (GeoResult.latitude r, GeoResult.longitude r) 10 ;;
             updateMapLayers host) s2) as [[] s3 | e s3]; simpl in *.
  - rewrite F1, F2, F3, F4, F5, Hla, Hlo, Hlog. repeat split; by left.
  - rewrite F2, F3, F4, F5, Hla, Hlo, Hlog. repeat split; by right.
Qed.

End NameLookup.

(** C2, as the code has it: a submitted lookup that fails writes its error
    message into the summary region and leaves the forecast region as it
    was at the time of the failure, which is the "Loading forecast..."
    placeholder written at submit (or nothing, when a daily array was
    missing); the cards shown before the lookup are gone. *)
Theorem searchWeather_failure_regions (host : Host) (s : State) (f : Failure) :
  Js.trim (cityInput s) <> [] ->
  lookup_failure host s = Some f ->
  currentWeather (final (searchWeather host s)) = [ErrorDiv (failure_message f)]
  /\ forecast (final (searchWeather host s)) = forecast_after f.
Proof.
  intros Hq Hf. destruct (Js.trim (cityInput s)) as [|c q] eqn:Htrim; [done|].
  clear Hq. unfold lookup_failure in Hf. rewrite Htrim in Hf.
  destruct (Js.well_formed (c :: q)) eqn:Hwf; cycle 1.
  { rewrite (geocoding_api_malformed host _ _ Hwf) in Hf. injection Hf as <-.
    rewrite (searchWeather_malformed host s c q Htrim Hwf). by split. }
  destruct (geocoding_api host (requests s ++ [GeocodeByName (c :: q)]))
    as [e | [[|r rest]|]] eqn:Hgeo.
  - injection Hf as <-.
    rewrite (searchWeather_geocoding_throws host s c q Htrim Hwf e Hgeo).
    by split.
  - injection Hf as <-.
    rewrite (searchWeather_not_found host s c q Htrim Hwf (or_intror Hgeo)).
    by split.
  - destruct (searchWeather_resolved host s c q Htrim Hwf r rest Hgeo)
      as (s2 & Hrun & Hfc & _ & _ & _ & Hcw).
    rewrite getWeatherData_fails in Hrun;
      cbn [resolved requests set_center set_requests] in *;
      rewrite log_snoc in *.
    + injection Hrun as <-. rewrite Hfc.
      destruct (weather_api host _) as [e | [cur|] d];
        try destruct (daily_complete d); try discriminate Hf;
        injection Hf as <-; (split; [by destruct Hcw as [-> | ->] | done]).
    + destruct (weather_api host _) as [e | [cur|] d];
        try destruct (daily_complete d) eqn:Hd; try discriminate Hf;
        simpl; by rewrite ?Hd.
  - injection Hf as <-.
    rewrite (searchWeather_not_found host s c q Htrim Hwf (or_introl Hgeo)).
    by split.
Qed.

Lemma searchWeather_failure_regions_witness :
  currentWeather
    (final (searchWeather (world (GeoJson None))
              (type_input (utf16 "Paris") (loaded_page "London"))))
  = [ErrorDiv (failure_message ForecastFailed)]
  /\ forecast
       (final (searchWeather (world (GeoJson None))
                 (type_input (utf16 "Paris") (loaded_page "London"))))
     = forecast_after ForecastFailed.
Proof.
  apply (searchWeather_failure_regions (world (GeoJson None))
           (type_input (utf16 "Paris") (loaded_page "London"))
           ForecastFailed).
  - vm_compute. discriminate.
  - vm_compute. reflexivity.
Defined.

(** C2, as stated, fails when "Atlantis" is looked up on a page that shows
    the five cards of London: the lookup finds no match, and the forecast
    region then holds the loading placeholder, not the five cards. *)
Lemma searchWeather_not_found_counterexample :
  (exists cards : list Card.t,
     length cards = 5%nat
     /\ forecast (type_input (utf16 "Atlantis") (loaded_page "London"))
        = ForecastCard <$> cards)
  /\ currentWeather
       (final (searchWeather (world (GeoJson None))
                 (type_input (utf16 "Atlantis") (loaded_page "London"))))
     = [ErrorDiv "City not found. Please try another city."]
  /\ forecast
       (final (searchWeather (world (GeoJson None))
                 (type_input (utf16 "Atlantis") (loaded_page "London"))))
     = [LoadingDiv "Loading forecast..."]
  /\ forecast
       (final (searchWeather (world (GeoJson None))
                 (type_input (utf16 "Atlantis") (loaded_page "London"))))
     <> forecast (type_input (utf16 "Atlantis") (loaded_page "London")).
Proof.
  split; [|split; [|split]].
  - eexists [_; _; _; _; _]. split; [reflexivity|]. vm_compute. reflexivity.
  - vm_compute. reflexivity.
  - vm_compute. reflexivity.
  - vm_compute. discriminate.
Qed.

(** ** Partial success *)

(** C3, as the code has it: when the location resolves and the forecast
    fetch then fails, the generic fetch error is shown and exactly one
    forecast request has been issued (no retry); the resolved coordinate
    is not discarded but has become the session's current center. *)
Theorem searchWeather_partial_success (host : Host) (s : State)
    (r : GeoResult.t) (rest : list GeoResult.t) :
  Js.trim (cityInput s) <> [] ->
  geocoding_api host (requests s ++ [GeocodeByName (Js.trim (cityInput s))])
  = GeoJson (Some (r :: rest)) ->
  weather_fails
    (weather_api host
       (requests s ++ [GeocodeByName (Js.trim (cityInput s));
                       ForecastAt (GeoResult.latitude r)
                                  (GeoResult.longitude r)])) = true ->
  currentWeather (final (searchWeather host s))
  = [ErrorDiv "Error fetching weather data. Please try again."]
  /\ requests (final (searchWeather host s))
     = requests s ++ [GeocodeByName (Js.trim (cityInput s));
                      ForecastAt (GeoResult.latitude r)
                                 (GeoResult.longitude r)]
  /\ currentLat (final (searchWeather host s)) = GeoResult.latitude r
  /\ currentLon (final (searchWeather host s)) = GeoResult.longitude r.
Proof.
  intros Hq Hgeo Hfail.
  destruct (Js.trim (cityInput s)) as [|c q] eqn:Htrim; [done|]. clear Hq.
  pose proof (geocoding_api_answered host _ _ _ Hgeo) as Hwf.
  destruct (searchWeather_resolved host s c q Htrim Hwf r rest Hgeo)
    as (s2 & Hrun & _ & Hla & Hlo & Hreq & Hcw).
  rewrite getWeatherData_fails in Hrun;
    cbn [resolved requests set_center set_requests] in *;
    rewrite log_snoc in *; [|exact Hfail].
  injection Hrun as <-.
  split; [by destruct Hcw as [-> | ->]|].
  by repeat split.
Qed.

Lemma searchWeather_partial_success_witness :
  currentWeather
    (final (searchWeather (world (GeoJson None))
              (type_input (utf16 "Paris") (loaded_page "London"))))
  = [ErrorDiv "Error fetching weather data. Please try again."]
  /\ requests
       (final (searchWeather (world (GeoJson None))
                 (type_input (utf16 "Paris") (loaded_page "London"))))
     = requests (type_input (utf16 "Paris") (loaded_page "London"))
       ++ [GeocodeByName
             (Js.trim (cityInput (type_input (utf16 "Paris")
                                             (loaded_page "London"))));
           ForecastAt (GeoResult.latitude paris) (GeoResult.longitude paris)]
  /\ currentLat
       (final (searchWeather (world (GeoJson None))
                 (type_input (utf16 "Paris") (loaded_page "London"))))
     = GeoResult.latitude paris
  /\ currentLon
       (final (searchWeather (world (GeoJson None))
                 (type_input (utf16 "Paris") (loaded_page "London"))))
     = GeoResult.longitude paris.
Proof.
  apply (searchWeather_partial_success (world (GeoJson None))
           (type_input (utf16 "Paris") (loaded_page "London")) paris []).
  - vm_compute. discriminate.
  - vm_compute. reflexivity.
  - vm_compute. reflexivity.
Defined.

(** C3, as stated, fails when "Paris" is looked up from the London page
    while the weather service is down: the fetch error is shown, yet the
    session center has moved from London to Paris. *)
Lemma searchWeather_center_moves_counterexample :
  weather_fails
    (weather_api (world (GeoJson None))
       (requests (type_input (utf16 "Paris") (loaded_page "London"))
        ++ [GeocodeByName (utf16 "Paris"); ForecastAt 48.85341 2.3488]))
  = true
  /\ currentWeather
       (final (searchWeather (world (GeoJson None))
                 (type_input (utf16 "Paris") (loaded_page "London"))))
     = [ErrorDiv "Error fetching weather data. Please try again."]
  /\ currentLat (type_input (utf16 "Paris") (loaded_page "London"))
     = 51.50853%Q
  /\ currentLat
       (final (searchWeather (world (GeoJson None))
                 (type_input (utf16 "Paris") (loaded_page "London"))))
     = 48.85341%Q
  /\ ~ (currentLat
          (final (searchWeather (world (GeoJson None))
                    (type_input (utf16 "Paris") (loaded_page "London"))))
        == currentLat (type_input (utf16 "Paris") (loaded_page "London")))%Q.
Proof.
  repeat split; try (vm_compute; reflexivity).
  vm_compute. discriminate.
Qed.

(** ** Recentering *)

Lemma searchWeather_resolved_run (host : Host) (s : State) (c : N)
    (q : Js.ustring) (r : GeoResult.t) (rest : list GeoResult.t)
    (m : LeafletMap) (btn : Button) :
  unit_interval host ->
  Js.trim (cityInput s) = c :: q ->
  geocoding_api host (requests s ++ [GeocodeByName (c :: q)])
  = GeoJson (Some (r :: rest)) ->
  leaflet_map s = Some m ->
  List.find active (buttons s) = Some btn ->
  exists (s2 : State) (layer : HeatLayer),
    getWeatherData host (GeoResult.latitude r) (GeoResult.longitude r)
                   (GeoResult.name r) (GeoResult.country r)
                   (resolved (c :: q) r s)
    = Normal tt s2
    /\ searchWeather host s
       = Normal tt
           (overlay_replaced
              {| center := (GeoResult.latitude r, GeoResult.longitude r);
                 zoom := 10; layers := layers m |}
              layer
              (set_leaflet_map
                 (Some {| center := (GeoResult.latitude r,
                                     GeoResult.longitude r);
                          zoom := 10; layers := layers m |}) s2))
    /\ currentLat s2 = GeoResult.latitude r
    /\ currentLon s2 = GeoResult.longitude r
    /\ length (points layer) = 50%nat
    /\ Forall (well_placed (GeoResult.latitude r) (GeoResult.longitude r)
                           (active_mode (textContent btn)))
              (points layer).
Proof.
  intros Hrandom Htrim Hgeo Hm Hbtn.
  pose proof (geocoding_api_answered host _ _ _ Hgeo) as Hwf.
  destruct (getWeatherData_returns host (GeoResult.latitude r)
              (GeoResult.longitude r) (GeoResult.name r) (GeoResult.country r)
              (resolved (c :: q) r s))
    as (s2 & Hrun & (Hm2 & Hb2 & _ & _ & Hla & Hlo & _) & _).
  simpl in Hm2, Hb2, Hla, Hlo.
  set (m3 := {| center := (GeoResult.latitude r, GeoResult.longitude r);
                zoom := 10; layers := layers m |}).
  assert (Hsv : map_setView (GeoResult.latitude r, GeoResult.longitude r) 10 s2
                = Normal tt (set_leaflet_map (Some m3) s2)).
  { unfold map_setView, with_map. run. by rewrite Hm2, Hm. }
  destruct (updateMapLayers_spec host Hrandom m3 btn
              (set_leaflet_map (Some m3) s2) eq_refl)
    as (layer & Hup & _ & Hlen & Hall).
  { simpl. by rewrite Hb2. }
  simpl in Hall. rewrite Hla, Hlo in Hall.
  exists s2, layer. split; [exact Hrun|].
  split; [|by repeat split].
  rewrite (searchWeather_submitted host s c q Htrim Hwf), Hgeo. unfold try_catch.
  rewrite (bind_normal (modify _) _ _ _ tt eq_refl).
  change (set_center _ _ (submitted (c :: q) s)) with (resolved (c :: q) r s).
  rewrite (bind_normal _ _ _ _ tt Hrun).
  rewrite (bind_normal _ _ _ _ tt Hsv).
  by rewrite Hup.
Qed.

(** C10: [getWeatherData] always returns normally; hence, on a page with a
    map and an active control, once the geocoder has produced a result
    [searchWeather] returns with the session center and the map view at
    the resolved coordinate (zoom 10) and with a fresh 50-sample overlay
    around it on the map, also when the weather fetch failed, in which
    case the summary region shows the fetch error. *)
Theorem searchWeather_recenters (host : Host) (s : State)
    (r : GeoResult.t) (rest : list GeoResult.t)
    (m : LeafletMap) (btn : Button) :
  unit_interval host ->
  Js.trim (cityInput s) <> [] ->
  geocoding_api host (requests s ++ [GeocodeByName (Js.trim (cityInput s))])
  = GeoJson (Some (r :: rest)) ->
  leaflet_map s = Some m ->
  List.find active (buttons s) = Some btn ->
  (forall la lo cityName country s0,
     returns (getWeatherData host la lo cityName country s0) = true)
  /\ exists (layer : HeatLayer) (m' : LeafletMap) (s' : State),
       searchWeather host s = Normal tt s'
       /\ currentLat s' = GeoResult.latitude r
       /\ currentLon s' = GeoResult.longitude r
       /\ leaflet_map s' = Some m'
       /\ center m' = (GeoResult.latitude r, GeoResult.longitude r)
       /\ zoom m' = 10
       /\ heatLayer s' = Some layer
       /\ Heat layer ∈ layers m'
       /\ length (points layer) = 50%nat
       /\ Forall (well_placed (GeoResult.latitude r) (GeoResult.longitude r)
                              (active_mode (textContent btn)))
                 (points layer)
       /\ (weather_fails
             (weather_api host
                (requests s ++ [GeocodeByName (Js.trim (cityInput s));
                                ForecastAt (GeoResult.latitude r)
                                           (GeoResult.longitude r)])) = true ->
           currentWeather s'
           = [ErrorDiv "Error fetching weather data. Please try again."]).
Proof.
  intros Hrandom Hq Hgeo Hm Hbtn. split.
  { intros la lo cityName country s0.
    destruct (getWeatherData_returns host la lo cityName country s0)
      as (s' & -> & _).
    reflexivity. }
  destruct (Js.trim (cityInput s)) as [|c q] eqn:Htrim; [done|]. clear Hq.
  destruct (searchWeather_resolved_run host s c q r rest m btn
              Hrandom Htrim Hgeo Hm Hbtn)
    as (s2 & layer & Hrun & Hsearch & Hla & Hlo & Hlen & Hall).
  exists layer. eexists. eexists. split; [exact Hsearch|].
  cbn [overlay_replaced currentLat currentLon leaflet_map heatLayer
       currentWeather set_heatLayer set_leaflet_map set_stamps set_draws
       center zoom layers].
  repeat split; try assumption.
  - apply elem_of_app. right. constructor.
  - intros Hfail.
    rewrite getWeatherData_fails in Hrun;
      cbn [resolved requests set_center set_requests] in *;
      rewrite log_snoc in *; [|exact Hfail].
    by injection Hrun as <-.
Qed.

Lemma searchWeather_recenters_witness :
  (forall la lo cityName country s0,
     returns (getWeatherData (world (GeoJson None)) la lo cityName country s0)
     = true)
  /\ exists (layer : HeatLayer) (m' : LeafletMap) (s' : State),
       searchWeather (world (GeoJson None)) paris_query = Normal tt s'
       /\ currentLat s' = GeoResult.latitude paris
       /\ currentLon s' = GeoResult.longitude paris
       /\ leaflet_map s' = Some m'
       /\ center m' = (GeoResult.latitude paris, GeoResult.longitude paris)
       /\ zoom m' = 10
       /\ heatLayer s' = Some layer
       /\ Heat layer ∈ layers m'
       /\ length (points layer) = 50%nat
       /\ Forall (well_placed (GeoResult.latitude paris)
                              (GeoResult.longitude paris)
                              (active_mode (textContent temperature_control)))
                 (points layer)
       /\ (weather_fails
             (weather_api (world (GeoJson None))
                (requests paris_query
                 ++ [GeocodeByName (Js.trim (cityInput paris_query));
                     ForecastAt (GeoResult.latitude paris)
                                (GeoResult.longitude paris)])) = true ->
           currentWeather s'
           = [ErrorDiv "Error fetching weather data. Please try again."]).
Proof.
  eapply (searchWeather_recenters (world (GeoJson None)) paris_query
            paris [] _ temperature_control).
  - apply world_unit_interval.
  - vm_compute. discriminate.
  - vm_compute. reflexivity.
  - vm_compute. reflexivity.
  - vm_compute. reflexivity.
Defined.

(** ** Reverse lookups *)

Lemma getWeatherData_outcome (host : Host) (la lo : Q)
    (cityName country : option string) (s : State) :
  exists s' : State,
    getWeatherData host la lo cityName country s = Normal tt s'
    /\ same_map s s'
    /\ requests s' = requests s ++ [ForecastAt la lo]
    /\ (weather_fails (weather_api host (requests s ++ [ForecastAt la lo]))
        = false ->
        exists v : Summary.t,
          currentWeather s' = [SummaryBlock v]
          /\ Summary.cityName v = cityName /\ Summary.country v = country).
Proof.
  destruct (weather_fails (weather_api host (requests s ++ [ForecastAt la lo])))
    eqn:E.
  - eexists. split; [exact (getWeatherData_fails host la lo cityName country s E)|].
    by repeat split.
  - destruct (getWeatherData_displays host la lo cityName country s E)
      as (v & cards & Hrun & Hn & Hc & _).
    eexists. split; [exact Hrun|].
    repeat split. intros _. exists v. by repeat split.
Qed.

(** C8, as the code has it: a reverse lookup whose geocoding answer
    carries no name does not fail; the forecast is still requested for the
    device coordinate, which is the session center, and a summary that is
    rendered is titled "Your Location".  The country falls back on its
    own: it is empty when the answer has no first entry (or that entry has
    no country), and is otherwise the country of the first entry. *)
Theorem getCurrentLocation_sentinel (host : Host) (la lo : Q) (s : State)
    (m : LeafletMap) (btn : Button) :
  unit_interval host ->
  geolocation host = Some (Position la lo) ->
  leaflet_map s = Some m ->
  List.find active (buttons s) = Some btn ->
  unnamed (geocoding_api host (requests s ++ [GeocodeByCoordinate la lo])) ->
  exists s' : State,
    getCurrentLocation host s = Normal tt s'
    /\ requests s'
       = requests s ++ [GeocodeByCoordinate la lo; ForecastAt la lo]
    /\ currentLat s' = la /\ currentLon s' = lo
    /\ (weather_fails
          (weather_api host
             (requests s ++ [GeocodeByCoordinate la lo; ForecastAt la lo]))
        = false ->
        exists v : Summary.t,
          currentWeather s' = [SummaryBlock v]
          /\ Summary.cityName v = Some "Your Location"
          /\ Summary.country v
             = Some (reverse_country
                       (geocoding_api host
                          (requests s ++ [GeocodeByCoordinate la lo])))
          /\ (first_result
                (geocoding_api host
                   (requests s ++ [GeocodeByCoordinate la lo])) = None ->
              Summary.country v = Some "")).
Proof.
  intros Hrandom Hpos Hm Hbtn Hgeo.
  unfold getCurrentLocation. rewrite Hpos.
  rewrite (bind_normal showLoading _ s _ tt eq_refl).
  unfold on_position.
  rewrite (bind_normal (modify (set_center la lo)) _ _ _ tt eq_refl).
  unfold try_catch.
  rewrite (bind_normal (gets currentLat) _ _ _ _ eq_refl).
  rewrite (bind_normal (gets currentLon) _ _ _ _ eq_refl).
  cbn [currentLat currentLon set_center].
  unfold fetch_geocoding. unfold mbind at 1. unfold M_bind at 1.
  cbn [requests set_requests set_center set_forecast set_currentWeather].
  unfold reverse_country, unnamed in *.
  destruct (geocoding_api host (requests s ++ [GeocodeByCoordinate la lo]))
    as [e | results].
  - rewrite (bind_normal (console_error _) _ _ _ tt eq_refl).
    rewrite (bind_normal (gets currentLat) _ _ _ _ eq_refl).
    rewrite (bind_normal (gets currentLon) _ _ _ _ eq_refl).
    cbv beta. cbn [currentLat currentLon set_console set_requests set_center].
    match goal with
    | |- context [getWeatherData host la lo ?n ?c ?s0] =>
        pose proof (getWeatherData_outcome host la lo n c s0) as Hout
    end.
    destruct Hout as (s2 & Hrun & Hsame & Hreq & Hshow).
    destruct Hsame as (_ & _ & _ & _ & Hla & Hlo & _).
    cbn [requests set_console set_requests currentLat currentLon] in *.
    rewrite log_snoc in *.
    exists s2. split; [exact Hrun|]. repeat split; try assumption.
    intros Hok. destruct (Hshow Hok) as (v & Hv & Hn & Hc).
    exists v. by repeat split.
  - rewrite (bind_normal (gets currentLat) _ _ _ _ eq_refl).
    rewrite (bind_normal (gets currentLon) _ _ _ _ eq_refl).
    cbv beta. cbn [currentLat currentLon set_requests set_center].
    match goal with
    | |- context [(getWeatherData host la lo ?n ?c ≫= _) ?s0] =>
        pose proof (getWeatherData_outcome host la lo n c s0) as Hout
    end.
    destruct Hout as (s2 & Hrun & Hsame & Hreq & Hshow).
    destruct Hsame as (Hm2 & Hb2 & _ & _ & Hla & Hlo & _).
    cbn [requests set_requests currentLat currentLon leaflet_map buttons
         set_center set_forecast set_currentWeather] in *.
    rewrite log_snoc in *.
    rewrite (bind_normal _ _ _ _ tt Hrun).
    rewrite (bind_normal (gets currentLat) _ _ _ _ eq_refl).
    rewrite (bind_normal (gets currentLon) _ _ _ _ eq_refl).
    cbv beta. rewrite Hla, Hlo.
    set (m3 := {| center := (la, lo); zoom := 10; layers := layers m |}).
    assert (Hsv : map_setView (la, lo) 10 s2
                  = Normal tt (set_leaflet_map (Some m3) s2)).
    { unfold map_setView, with_map. run. by rewrite Hm2, Hm. }
    rewrite (bind_normal _ _ _ _ tt Hsv).
    destruct (updateMapLayers_spec host Hrandom m3 btn
                (set_leaflet_map (Some m3) s2) eq_refl)
      as (layer & Hup & _).
    { simpl. by rewrite Hb2. }
    rewrite Hup. eexists. split; [reflexivity|].
    cbn [overlay_replaced requests currentLat currentLon currentWeather
         set_heatLayer set_leaflet_map set_stamps set_draws].
    repeat split; try assumption.
    intros Hok. destruct (Hshow Hok) as (v & Hv & Hn & Hc).
    exists v. split; [exact Hv|].
    rewrite Hn, Hc. unfold first_field. simpl in Hgeo |- *.
    destruct results as [[|r rest]|]; simpl in *.
    + by repeat split.
    + destruct Hgeo as [-> | ->]; repeat split; done.
    + by repeat split.
Qed.

Lemma getCurrentLocation_sentinel_witness :
  exists s' : State,
    getCurrentLocation (world (GeoJson None)) (loaded_page "") = Normal tt s'
    /\ requests s'
       = requests (loaded_page "")
         ++ [GeocodeByCoordinate 40.7128 (-74.006);
             ForecastAt 40.7128 (-74.006)]
    /\ currentLat s' = 40.7128%Q /\ currentLon s' = (-74.006)%Q
    /\ (weather_fails
          (weather_api (world (GeoJson None))
             (requests (loaded_page "")
              ++ [GeocodeByCoordinate 40.7128 (-74.006);
                  ForecastAt 40.7128 (-74.006)]))
        = false ->
        exists v : Summary.t,
          currentWeather s' = [SummaryBlock v]
          /\ Summary.cityName v = Some "Your Location"
          /\ Summary.country v
             = Some (reverse_country
                       (geocoding_api (world (GeoJson None))
                          (requests (loaded_page "")
                           ++ [GeocodeByCoordinate 40.7128 (-74.006)])))
          /\ (first_result
                (geocoding_api (world (GeoJson None))
                   (requests (loaded_page "")
                    ++ [GeocodeByCoordinate 40.7128 (-74.006)])) = None ->
              Summary.country v = Some "")).
Proof.
  eapply (getCurrentLocation_sentinel (world (GeoJson None))
            40.7128 (-74.006) (loaded_page "") _ temperature_control).
  - apply world_unit_interval.
  - reflexivity.
  - vm_compute. reflexivity.
  - vm_compute. reflexivity.
  - vm_compute. exact I.
Defined.

(** C8, as stated, fails for a reverse geocoding answer whose first entry
    has a country but no name (or an empty name): the summary is titled
    "Your Location", yet its country is "United States", not empty. *)
Lemma getCurrentLocation_country_counterexample :
  unnamed nameless_entry /\ unnamed empty_name_entry
  /\ (exists v : Summary.t,
        currentWeather
          (final (getCurrentLocation (world nameless_entry) (loaded_page "")))
        = [SummaryBlock v]
        /\ Summary.cityName v = Some "Your Location"
        /\ Summary.country v = Some "United States"
        /\ Summary.country v <> Some "")
  /\ (exists v : Summary.t,
        currentWeather
          (final (getCurrentLocation (world empty_name_entry)
                                     (loaded_page "")))
        = [SummaryBlock v]
        /\ Summary.cityName v = Some "Your Location"
        /\ Summary.country v = Some "United States"
        /\ Summary.country v <> Some "").
Proof.
  split; [by left|]. split; [by right|].
  split; (eexists; split; [vm_compute; reflexivity|]);
    split; [reflexivity | split; [reflexivity | discriminate]
           | reflexivity | split; [reflexivity | discriminate]].
Qed.

(** ** Start-up *)







(** ** Worked values *)

Example getWindDirection_cardinals :
  getWindDirection 0 = Some "N" /\ getWindDirection 90 = Some "E"
  /\ getWindDirection 180 = Some "S" /\ getWindDirection 270 = Some "W"
  /\ getWindDirection 360 = Some "N" /\ getWindDirection (-11.25) = Some "N".
Proof. by repeat split. Qed.

Example Math_round_ties :
  Js.Math_round 2.5 = 3 /\ Js.Math_round (-2.5) = -2
  /\ Js.Math_round (-0.5) = 0 /\ Js.Math_round 15.49 = 15.
Proof. by repeat split. Qed.

Example trim_keeps_inner_space :
  Js.trim (utf16 "  New York ") = utf16 "New York".
Proof. reflexivity. Qed.

Example active_mode_of_labels :
  active_mode "ğŸŒ¡ï¸ Temperature" = Temperature
  /\ active_mode "ğŸ’¨ Wind Flow" = Wind
  /\ active_mode "ğŸ’§ Precipitation" = Precipitation.
Proof. by repeat split. Qed.

(** * Further properties of the script *)

(** ** Compass sectors *)

Lemma Math_round_sector (d : Q) (k : Z) :
  ((45 # 2) * inject_Z k - (45 # 4) <= d)%Q ->
  (d < (45 # 2) * inject_Z k + (45 # 4))%Q ->
  Js.Math_round (d / (45 # 2)) = k.
Proof.
  intros Hlo Hhi. unfold Js.Math_round. apply Qfloor_unique.
  - unfold Qdiv. change (/ (45 # 2))%Q with (2 # 45)%Q. lra.
  - rewrite inject_Z_plus. change (inject_Z 1) with 1%Q.
    unfold Qdiv. change (/ (45 # 2))%Q with (2 # 45)%Q. lra.
Qed.

(** On exact rationals a bearing in [22.5 k - 11.25, 22.5 k + 11.25),
    k >= 0, is labelled with name number k modulo 16. *)
Lemma getWindDirection_sector (d : Q) (k : nat) :
  ((45 # 2) * inject_Z (Z.of_nat k) - (45 # 4) <= d)%Q ->
  (d < (45 # 2) * inject_Z (Z.of_nat k) + (45 # 4))%Q ->
  getWindDirection d = directions !! (k mod 16)%nat.
Proof.
  intros Hlo Hhi. unfold getWindDirection, Js.rem.
  rewrite (Math_round_sector d (Z.of_nat k) Hlo Hhi).
  rewrite Z.rem_mod_nonneg by lia.
  unfold Js.array_get.
  destruct (Z.ltb_spec (Z.of_nat k mod 16) 0) as [Hneg | _].
  - pose proof (Z.mod_pos_bound (Z.of_nat k) 16). lia.
  - f_equal. change 16 with (Z.of_nat 16).
    rewrite <- Nat2Z.inj_mod. apply Nat2Z.id.
Qed.

(** X1: the compass is cut into 16 sectors of 22.5 degrees centred on the
    16 names.  For a bearing of a whole number [n] of quarter degrees
    within four turns of zero: when [n / 4] lies in
    [22.5 k - 11.25, 22.5 k + 11.25), k >= 0, the label is name number k
    modulo 16, so a sector boundary belongs to the sector above it and
    bearings from 348.75 wrap round to "N". *)
Theorem getWindDirection64_sector (n : Z) (k : nat) :
  -5760 <= n <= 5760 ->
  90 * Z.of_nat k - 45 <= n < 90 * Z.of_nat k + 45 ->
  getWindDirection64 (quarter_degrees n) = directions !! (k mod 16)%nat.
Proof.
  intros Hn [Hlo Hhi].
  rewrite getWindDirection64_exact by exact Hn.
  apply getWindDirection_sector.
  - unfold Qle, Qminus, Qplus, Qmult, Qopp, inject_Z. simpl. lia.
  - unfold Qlt, Qminus, Qplus, Qmult, Qopp, inject_Z. simpl. lia.
Qed.

Lemma getWindDirection64_sector_witness :
  getWindDirection64 (quarter_degrees 1395) = directions !! (16 mod 16)%nat.
Proof.
  apply (getWindDirection64_sector 1395 16); lia.
Defined.

(** The first sector boundary as the script's doubles have it: 11.25 is
    labelled "NNE", the largest double below it "N". *)
Example getWindDirection64_boundary :
  getWindDirection64 (quarter_degrees 45) = Some "NNE"
  /\ getWindDirection64 below_first_boundary = Some "N".
Proof. split; vm_compute; reflexivity. Qed.

(** Doubles beyond the range of these statements need not follow the
    sectors of exact arithmetic: 1e17 lies in the sector of "W" (sector
    number 4444444444444444), but its quotient by 22.5 rounds to the
    next sector number and the label is "WNW". *)
Example getWindDirection64_large :
  Js.Math_round (inject_Z (10 ^ 17) / (45 # 2)) = 4444444444444444
  /\ getWindDirection (inject_Z (10 ^ 17)) = Some "W"
  /\ getWindDirection64 (Js.of_binary (10 ^ 17) 0) = Some "WNW".
Proof. repeat split; vm_compute; reflexivity. Qed.

(** X2: bearings in [-348.75, -11.25) have no label: the rounded sector
    number is negative and [%] keeps its sign, so the table is indexed
    out of range. *)
Theorem getWindDirection_negative_undefined (d : Q) :
  (- (1395 # 4) <= d)%Q -> (d < - (45 # 4))%Q ->
  getWindDirection d = None.
Proof.
  intros Hlo Hhi. unfold getWindDirection, Js.rem, Js.Math_round.
  set (x := (d / (45 # 2) + (1 # 2))%Q).
  assert (Hx : (inject_Z (-15) <= x /\ x < inject_Z 0)%Q).
  { subst x. unfold Qdiv. change (/ (45 # 2))%Q with (2 # 45)%Q.
    change (inject_Z (-15)) with (-15)%Q. change (inject_Z 0) with 0%Q.
    split; lra. }
  destruct Hx as [Hx1 Hx2].
  pose proof (Qfloor_le x) as Hfl.
  pose proof (Qlt_floor x) as Hfu.
  assert (H1 : (inject_Z (-15) < inject_Z (Qfloor x + 1))%Q)
    by (eapply Qle_lt_trans; eassumption).
  assert (H2 : (inject_Z (Qfloor x) < inject_Z 0)%Q)
    by (eapply Qle_lt_trans; eassumption).
  rewrite <- Zlt_Qlt in H1, H2.
  assert (Hrem : Z.rem (Qfloor x) 16 = Qfloor x).
  { replace (Qfloor x) with (- - Qfloor x) at 1 by lia.
    rewrite Z.rem_opp_l by lia. rewrite Z.rem_small by lia. lia. }
  rewrite Hrem. unfold Js.array_get.
  destruct (Z.ltb_spec (Qfloor x) 0) as [_ | Hge]; [reflexivity | lia].
Qed.

Lemma getWindDirection_negative_undefined_witness :
  getWindDirection (-90) = None.
Proof.
  apply (getWindDirection_negative_undefined (-90)); vm_compute; congruence.
Defined.

(** ** The samples of an overlay *)

Lemma sample_point_at (host : Host) (label : string) (s : State) :
  sample_point host label s
  = Normal (sample_at host label (currentLat s) (currentLon s) (draws s) 0)
           (set_draws (3 + draws s) s).
Proof.
  unfold sample_point, sample_at, active_mode, Math_random. run.
  destruct (Js.includes label "Temperature");
    [| destruct (Js.includes label "Wind")]; reflexivity.
Qed.

Lemma sample_at_shift (host : Host) (label : string) (la lo : Q) (d i : nat) :
  sample_at host label la lo (3 + d) i = sample_at host label la lo d (S i).
Proof.
  unfold sample_at.
  replace (0 + 3 * i + (3 + d))%nat with (0 + 3 * S i + d)%nat by lia.
  replace (1 + 3 * i + (3 + d))%nat with (1 + 3 * S i + d)%nat by lia.
  replace (2 + 3 * i + (3 + d))%nat with (2 + 3 * S i + d)%nat by lia.
  reflexivity.
Qed.

Lemma sample_loop_at (host : Host) (label : string) (n : nat) :
  forall (pts : list Point) (s : State),
    sample_loop host label n pts s
    = Normal (pts ++ (sample_at host label (currentLat s) (currentLon s)
                                (draws s) <$> seq 0 n))
             (set_draws (3 * n + draws s) s).
Proof.
  induction n as [|n IH]; intros pts s.
  - simpl. rewrite app_nil_r. destruct s; reflexivity.
  - cbn [sample_loop].
    rewrite (bind_normal _ _ _ _ _ (sample_point_at host label s)).
    rewrite IH. cbn [currentLat currentLon draws set_draws].
    f_equal.
    + rewrite <- app_assoc. f_equal. cbn [seq fmap list_fmap app].
      f_equal. rewrite <- seq_shift, <- list_fmap_compose.
      apply list_fmap_ext. intros _ i _. apply sample_at_shift.
    + unfold set_draws. simpl. f_equal. lia.
Qed.

Lemma updateMapLayers_run (host : Host) (m : LeafletMap) (btn : Button)
    (s : State) :
  leaflet_map s = Some m ->
  List.find active (buttons s) = Some btn ->
  updateMapLayers host s
  = Normal tt
      (overlay_replaced m
         {| stamp := stamps s;
            points := sample_at host (textContent btn) (currentLat s)
                                (currentLon s) (draws s) <$> seq 0 50;
            options := if Js.includes (textContent btn) "Temperature"
                       then temperature_options
                       else other_options (textContent btn) |} s).
Proof.
  intros Hm Hbtn.
  set (s1 := set_leaflet_map
               (Some {| center := center m; zoom := zoom m;
                        layers := without (heatLayer s) (layers m) |}) s).
  set (s2 := set_leaflet_map
               (Some {| center := center m; zoom := zoom m;
                        layers := without (windLayer s)
                                    (without (heatLayer s) (layers m)) |}) s1).
  unfold updateMapLayers.
  rewrite (bind_normal (gets heatLayer) _ s s _ eq_refl).
  rewrite (bind_normal _ _ s s1 tt (remove_if_set_spec _ m s Hm)).
  rewrite (bind_normal (gets windLayer) _ s1 s1 _ eq_refl).
  rewrite (bind_normal _ _ s1 s2 tt (remove_if_set_spec _ _ s1 eq_refl)).
  assert (Hact : active_textContent s2 = Normal (textContent btn) s2).
  { unfold active_textContent. run. by rewrite Hbtn. }
  rewrite (bind_normal _ _ _ _ _ Hact).
  rewrite (bind_normal _ _ _ _ _ (sample_loop_at host (textContent btn) 50 [] s2)).
  rewrite (bind_normal (L_heatLayer _ _) _ _ _ _ eq_refl).
  cbv beta.
  match goal with
  | |- (map_addLayer ?x ≫= _) ?s0 = _ =>
      rewrite (bind_normal (map_addLayer x) _ s0
                 (set_leaflet_map
                    (Some {| center := center m; zoom := zoom m;
                             layers := without (windLayer s)
                                         (without (heatLayer s) (layers m))
                                       ++ [x] |}) s0) tt eq_refl)
  end.
  reflexivity.
Qed.

(** X3: a call of [updateMapLayers] on a page with a map and an active
    control draws exactly 150 random numbers; sample number i (i < 50) is
    made of draws 3i, 3i+1 and 3i+2 counted from the first draw of the
    call, used for latitude, longitude and intensity in this order.  The
    new layer is stamped with the layer counter, which advances by one. *)
Theorem updateMapLayers_samples (host : Host) (m : LeafletMap) (btn : Button)
    (s : State) :
  leaflet_map s = Some m ->
  List.find active (buttons s) = Some btn ->
  exists (layer : HeatLayer) (s' : State),
    updateMapLayers host s = Normal tt s'
    /\ heatLayer s' = Some layer
    /\ draws s' = (150 + draws s)%nat
    /\ stamp layer = stamps s /\ stamps s' = S (stamps s)
    /\ forall i : nat, (i < 50)%nat ->
         points layer !! i
         = Some (sample_at host (textContent btn) (currentLat s)
                           (currentLon s) (draws s) i).
Proof.
  intros Hm Hbtn. eexists. eexists.
  split; [exact (updateMapLayers_run host m btn s Hm Hbtn)|].
  repeat split. intros i Hi.
  cbn [points]. rewrite list_lookup_fmap.
  rewrite lookup_seq_lt by exact Hi. reflexivity.
Qed.

Lemma updateMapLayers_samples_witness :
  exists (layer : HeatLayer) (s' : State),
    updateMapLayers (world (GeoJson None)) (loaded_page "London")
    = Normal tt s'
    /\ heatLayer s' = Some layer
    /\ draws s' = (150 + draws (loaded_page "London"))%nat
    /\ stamp layer = stamps (loaded_page "London")
    /\ stamps s' = S (stamps (loaded_page "London"))
    /\ forall i : nat, (i < 50)%nat ->
         points layer !! i
         = Some (sample_at (world (GeoJson None))
                           (textContent temperature_control)
                           (currentLat (loaded_page "London"))
                           (currentLon (loaded_page "London"))
                           (draws (loaded_page "London")) i).
Proof.
  eapply (updateMapLayers_samples (world (GeoJson None)) _
            temperature_control (loaded_page "London")).
  - vm_compute. reflexivity.
  - vm_compute. reflexivity.
Defined.

Lemma updateMapLayers_throws_run (host : Host) (m : LeafletMap) (s : State) :
  leaflet_map s = Some m ->
  List.find active (buttons s) = None ->
  updateMapLayers host s
  = Throw (TypeError "Cannot read properties of null")
      (set_leaflet_map
         (Some {| center := center m; zoom := zoom m;
                  layers := without (windLayer s)
                              (without (heatLayer s) (layers m)) |}) s).
Proof.
  intros Hm Hbtn.
  set (s1 := set_leaflet_map
               (Some {| center := center m; zoom := zoom m;
                        layers := without (heatLayer s) (layers m) |}) s).
  unfold updateMapLayers.
  rewrite (bind_normal (gets heatLayer) _ s s _ eq_refl).
  rewrite (bind_normal _ _ s s1 tt (remove_if_set_spec _ m s Hm)).
  rewrite (bind_normal (gets windLayer) _ s1 s1 _ eq_refl).
  rewrite (bind_normal _ _ s1 _ tt (remove_if_set_spec _ _ s1 eq_refl)).
  erewrite bind_throw; [reflexivity|].
  unfold active_textContent. run. by rewrite Hbtn.
Qed.

(** X4: without an active control [updateMapLayers] throws on reading the
    label, after it has taken the current overlay off the map: no sample
    is drawn, no layer is created, the global [heatLayer] still holds the
    removed layer, and a map that showed only that overlay shows none. *)
Theorem updateMapLayers_no_active_control (host : Host) (m : LeafletMap)
    (s : State) :
  leaflet_map s = Some m ->
  List.find active (buttons s) = None ->
  exists (e : Exn) (s' : State),
    updateMapLayers host s = Throw e s'
    /\ leaflet_map s'
       = Some {| center := center m; zoom := zoom m;
                 layers := without (windLayer s)
                             (without (heatLayer s) (layers m)) |}
    /\ heatLayer s' = heatLayer s
    /\ draws s' = draws s /\ stamps s' = stamps s
    /\ (heat_layers (layers m) = option_list (heatLayer s) -> no_overlay s').
Proof.
  intros Hm Hbtn. eexists. eexists.
  split; [exact (updateMapLayers_throws_run host m s Hm Hbtn)|].
  do 4 (split; [reflexivity|]).
  intros Hinv. unfold no_overlay. simpl.
  apply heat_layers_without_none. by apply heat_layers_without_current.
Qed.

Lemma updateMapLayers_no_active_control_witness :
  exists (e : Exn) (s' : State),
    updateMapLayers (world (GeoJson None)) deselected_page = Throw e s'
    /\ heatLayer s' = heatLayer deselected_page
    /\ no_overlay s'.
Proof.
  assert (Hm : exists m, leaflet_map deselected_page = Some m)
    by (eexists; vm_compute; reflexivity).
  destruct Hm as (m & Hm).
  destruct (updateMapLayers_no_active_control (world (GeoJson None)) m
              deselected_page Hm)
    as (e & s' & Hrun & _ & Hheat & _ & _ & Hnone).
  - vm_compute. reflexivity.
  - exists e, s'. split; [exact Hrun|]. split; [exact Hheat|].
    apply Hnone. vm_compute in Hm. injection Hm as <-.
    vm_compute. reflexivity.
Defined.

(** ** Mode handlers *)


Lemma show_mode_unfold (host : Host) (mode : OverlayMode) :
  show_mode host mode
  = (setActiveButton (mode_label mode) ;; updateMapLayers host).
Proof. destruct mode; reflexivity. Qed.



Lemma setActiveButton_frame (label : string) :
  preserves same_display (setActiveButton label).
Proof. intros s. by repeat split. Qed.

(** X6: a mode handler never fetches and never touches the two regions,
    the session center or the input field, on whatever page it runs and
    however it completes. *)
Theorem show_mode_display_untouched (host : Host) (mode : OverlayMode)
    (s : State) :
  requests (final (show_mode host mode s)) = requests s
  /\ currentWeather (final (show_mode host mode s)) = currentWeather s
  /\ forecast (final (show_mode host mode s)) = forecast s
  /\ currentLat (final (show_mode host mode s)) = currentLat s
  /\ currentLon (final (show_mode host mode s)) = currentLon s
  /\ cityInput (final (show_mode host mode s)) = cityInput s.
Proof.
  rewrite show_mode_unfold.
  pose proof (preserves_bind same_display same_display_trans
                (setActiveButton (mode_label mode))
                (fun _ => updateMapLayers host)
                (setActiveButton_frame _)
                (fun _ => updateMapLayers_frame host) s)
    as (F1 & F2 & F3 & F4 & F5 & F6).
  by repeat split.
Qed.

(** ** At most one overlay *)

Lemma keeps_refl (I : State -> Prop) (s : State) : keeps I s s.
Proof. intros H. exact H. Qed.

Lemma keeps_trans (I : State -> Prop) (s1 s2 s3 : State) :
  keeps I s1 s2 -> keeps I s2 s3 -> keeps I s1 s3.
Proof. unfold keeps. auto. Qed.

Lemma with_map_none {A} (f : LeafletMap -> M A) (s : State) :
  leaflet_map s = None ->
  with_map f s = Throw (TypeError "map is undefined") s.
Proof. intros H. unfold with_map. run. by rewrite H. Qed.

Lemma updateMapLayers_no_map (host : Host) (s : State) :
  leaflet_map s = None ->
  leaflet_map (final (updateMapLayers host s)) = None.
Proof.
  intros Hnone. unfold updateMapLayers.
  rewrite (bind_normal (gets heatLayer) _ s s _ eq_refl).
  destruct (heatLayer s) as [hl|] eqn:Hhl.
  { erewrite bind_throw; [|apply (with_map_none _ s Hnone)]. exact Hnone. }
  rewrite (bind_normal (remove_if_set None) _ s s tt eq_refl).
  rewrite (bind_normal (gets windLayer) _ s s _ eq_refl).
  destruct (windLayer s) as [wl|] eqn:Hwl.
  { erewrite bind_throw; [|apply (with_map_none _ s Hnone)]. exact Hnone. }
  rewrite (bind_normal (remove_if_set None) _ s s tt eq_refl).
  destruct (List.find active (buttons s)) as [btn|] eqn:Hbtn.
  2:{ assert (Hact : active_textContent s
                     = Throw (TypeError "Cannot read properties of null") s)
        by (unfold active_textContent; run; by rewrite Hbtn).
      rewrite (bind_throw _ _ _ _ _ Hact). exact Hnone. }
  assert (Hact : active_textContent s = Normal (textContent btn) s)
    by (unfold active_textContent; run; by rewrite Hbtn).
  rewrite (bind_normal _ _ _ _ _ Hact).
  rewrite (bind_normal _ _ _ _ _ (sample_loop_at host (textContent btn) 50 [] s)).
  rewrite (bind_normal (L_heatLayer _ _) _ _ _ _ eq_refl).
  cbv beta.
  erewrite bind_throw; [|apply with_map_none; exact Hnone].
  exact Hnone.
Qed.

Lemma updateMapLayers_keeps (host : Host) :
  preserves (keeps single_overlay) (updateMapLayers host).
Proof.
  intros s Hinv. unfold single_overlay in *.
  destruct (leaflet_map s) as [m|] eqn:Hm.
  - assert (Hclean : heat_layers (without (windLayer s)
                                    (without (heatLayer s) (layers m))) = []).
    { apply heat_layers_without_none.
      destruct Hinv as [Hinv | Hinv];
        [by apply heat_layers_without_none
        | by apply heat_layers_without_current]. }
    destruct (List.find active (buttons s)) as [btn|] eqn:Hbtn.
    + rewrite (updateMapLayers_run host m btn s Hm Hbtn).
      cbn [final overlay_replaced leaflet_map heatLayer set_heatLayer
           set_leaflet_map layers].
      right. unfold heat_layers in *. rewrite omap_app, Hclean. reflexivity.
    + rewrite (updateMapLayers_throws_run host m s Hm Hbtn).
      cbn [final leaflet_map set_leaflet_map layers]. left. exact Hclean.
  - by rewrite (updateMapLayers_no_map host s Hm).
Qed.

Lemma map_setView_keeps (c : Q * Q) (z : Z) :
  preserves (keeps single_overlay) (map_setView c z).
Proof.
  intros s Hinv. unfold map_setView.
  destruct (leaflet_map s) as [m|] eqn:Hm.
  - assert (Hrun : with_map
                     (fun m => modify (set_leaflet_map
                                 (Some {| center := c; zoom := z;
                                          layers := layers m |}))) s
                   = Normal tt (set_leaflet_map
                                  (Some {| center := c; zoom := z;
                                           layers := layers m |}) s))
      by (unfold with_map; run; by rewrite Hm).
    rewrite Hrun. unfold single_overlay in *. rewrite Hm in Hinv. exact Hinv.
  - by rewrite (with_map_none _ s Hm).
Qed.

Lemma getWeatherData_keeps (host : Host) (la lo : Q)
    (cityName country : option string) :
  preserves (keeps single_overlay)
            (getWeatherData host la lo cityName country).
Proof.
  intros s Hinv.
  destruct (getWeatherData_returns host la lo cityName country s)
    as (s' & -> & (Hm & _ & Hh & _) & _).
  unfold single_overlay in *. simpl. by rewrite Hm, Hh.
Qed.

Lemma fetch_geocoding_keeps (host : Host) (req : Request) :
  preserves (keeps single_overlay) (fetch_geocoding host req).
Proof.
  intros s Hinv. unfold fetch_geocoding.
  destruct (geocoding_api host _); exact Hinv.
Qed.

Lemma encodeURIComponent_keeps (text : Js.ustring) :
  preserves (keeps single_overlay) (encodeURIComponent text).
Proof.
  intros s Hinv. unfold encodeURIComponent.
  destruct (Js.well_formed text); exact Hinv.
Qed.

Ltac keeps_step :=
  lazymatch goal with
  | |- preserves _ (updateMapLayers _) => apply updateMapLayers_keeps
  | |- preserves _ (encodeURIComponent _) => apply encodeURIComponent_keeps
  | |- preserves _ (map_setView _ _) => apply map_setView_keeps
  | |- preserves _ (getWeatherData _ _ _ _ _) => apply getWeatherData_keeps
  | |- preserves _ (fetch_geocoding _ _) => apply fetch_geocoding_keeps
  | |- preserves _ (mret _) =>
      apply (preserves_ret (keeps single_overlay) (keeps_refl single_overlay))
  | |- preserves _ (throw _) =>
      apply (preserves_throw (keeps single_overlay) (keeps_refl single_overlay))
  | |- preserves _ (gets _) =>
      apply (preserves_gets (keeps single_overlay) (keeps_refl single_overlay))
  | |- preserves _ (modify _) =>
      apply preserves_modify; intros ? H; exact H
  | |- preserves _ (_ ≫= _) =>
      apply (preserves_bind (keeps single_overlay)
               (keeps_trans single_overlay)); [|intros ?]
  | |- preserves _ (try_catch _ _) =>
      apply (preserves_try (keeps single_overlay)
               (keeps_trans single_overlay)); [|intros ?]
  end.

Lemma searchWeather_keeps (host : Host) :
  preserves (keeps single_overlay) (searchWeather host).
Proof.
  unfold searchWeather, showLoading, showError, console_error.
  apply (preserves_bind _ (keeps_trans single_overlay));
    [keeps_step | intros q].
  destruct q as [|c q]; [keeps_step|].
  apply (preserves_bind _ (keeps_trans single_overlay));
    [repeat keeps_step | intros _].
  apply (preserves_try _ (keeps_trans single_overlay));
    [|intros e; repeat keeps_step].
  apply (preserves_bind _ (keeps_trans single_overlay));
    [keeps_step | intros name].
  apply (preserves_bind _ (keeps_trans single_overlay));
    [keeps_step | intros results].
  destruct results as [[|r rest]|]; repeat keeps_step.
Qed.

Lemma getCurrentLocation_keeps (host : Host) :
  preserves (keeps single_overlay) (getCurrentLocation host).
Proof.
  unfold getCurrentLocation, on_position, showLoading, showError,
    console_error.
  destruct (geolocation host) as [[la lo | message]|]; repeat keeps_step.
Qed.

Lemma show_mode_keeps (host : Host) (mode : OverlayMode) :
  preserves (keeps single_overlay) (show_mode host mode).
Proof.
  rewrite show_mode_unfold. unfold setActiveButton. repeat keeps_step.
Qed.

Lemma heat_layers_tile (ls : list Layer) (url : string) :
  heat_layers (ls ++ [TileLayer url]) = heat_layers ls.
Proof. unfold heat_layers. rewrite omap_app. simpl. apply app_nil_r. Qed.

Lemma initMap_establishes (host : Host) (s : State) :
  single_overlay (final (initMap host s)).
Proof.
  unfold initMap.
  rewrite (bind_normal (gets currentLat) _ s s _ eq_refl).
  rewrite (bind_normal (gets currentLon) _ s s _ eq_refl).
  cbv beta.
  rewrite (bind_normal (modify _) _ s _ tt eq_refl).
  match goal with
  | |- context [(map_addLayer ?x ≫= _) ?s0] =>
      rewrite (bind_normal (map_addLayer x) _ s0
                 (set_leaflet_map
                    (Some {| center := (currentLat s, currentLon s);
                             zoom := 10; layers := [x] |}) s) tt eq_refl)
  end.
  apply (show_mode_keeps host Temperature). by left.
Qed.

(** X7: the map never stacks overlays.  If the map shows at most one
    overlay layer, and that one is the layer held by [heatLayer], then the
    same holds after a name lookup, a device lookup and any mode handler,
    on every page and for every answer of the collaborators, also when
    the action stops on an exception; start-up establishes it. *)
Theorem single_overlay_invariant (host : Host) (s : State) :
  single_overlay s ->
  single_overlay (final (searchWeather host s))
  /\ single_overlay (final (getCurrentLocation host s))
  /\ (forall mode, single_overlay (final (show_mode host mode s)))
  /\ (forall input summary0 forecast0 bs,
        single_overlay
          (final (initApp host (startup input summary0 forecast0 bs)))).
Proof.
  intros Hinv. split; [|split; [|split]].
  - by apply searchWeather_keeps.
  - by apply getCurrentLocation_keeps.
  - intros mode. by apply show_mode_keeps.
  - intros input summary0 forecast0 bs. unfold initApp.
    pose proof (initMap_establishes host (startup input summary0 forecast0 bs))
      as Hinit.
    unfold mbind, M_bind.
    destruct (initMap host (startup input summary0 forecast0 bs))
      as [[] s1 | e s1]; simpl in Hinit; [|exact Hinit].
    by apply searchWeather_keeps.
Qed.

Lemma single_overlay_invariant_witness :
  single_overlay
    (final (searchWeather (world (GeoJson None)) paris_query))
  /\ single_overlay
       (final (getCurrentLocation (world (GeoJson None)) paris_query)).
Proof.
  destruct (single_overlay_invariant (world (GeoJson None)) paris_query)
    as (H1 & H2 & _).
  - vm_compute. right. reflexivity.
  - split; [exact H1 | exact H2].
Defined.

(** ** What a name lookup requests *)

Lemma trimStart_head (text : Js.ustring) (c : N) (rest : Js.ustring) :
  Js.trimStart text = c :: rest -> Js.is_white_space c = false.
Proof.
  induction text as [|d text IH]; intros H; [discriminate|].
  simpl in H. destruct (Js.is_white_space d) eqn:E; [by apply IH|].
  by injection H as <- _.
Qed.

Lemma trimStart_snoc (text : Js.ustring) (c : N) :
  Js.is_white_space c = false ->
  exists kept, Js.trimStart (text ++ [c]) = kept ++ [c].
Proof.
  intros Hc. induction text as [|d text IH]; simpl.
  - rewrite Hc. by exists [].
  - destruct (Js.is_white_space d); [exact IH|]. by exists (d :: text).
Qed.

Lemma trim_edges (text : Js.ustring) :
  ~ blank text ->
  exists (c d : N) (q : Js.ustring),
    Js.trim text = c :: q
    /\ Js.is_white_space c = false
    /\ last (c :: q) = Some d /\ Js.is_white_space d = false.
Proof.
  intros Hnb. unfold Js.trim, Js.trimEnd.
  destruct (Js.trimStart text) as [|c t] eqn:Hstart.
  { exfalso. apply Hnb. by apply trimStart_nil_blank. }
  pose proof (trimStart_head _ _ _ Hstart) as Hc.
  simpl rev.
  destruct (trimStart_snoc (rev t) c Hc) as (kept & Hkept).
  rewrite Hkept, rev_app_distr. simpl.
  exists c. 
  destruct kept as [|d kept'] eqn:Ek.
  - exists c, []. by repeat split.
  - assert (Hd : Js.is_white_space d = false).
    { apply (trimStart_head (rev t ++ [c]) d (kept' ++ [c])).
      by rewrite Hkept. }
    exists d, (rev kept' ++ [d]). repeat split; [exact Hc | | exact Hd].
    change (c :: rev kept' ++ [d]) with ((c :: rev kept') ++ [d]).
    apply last_snoc.
Qed.

(** X8: a name lookup with a query that is not blank issues at most two
    requests and never repeats one.  The query is the text stripped of
    white space at both ends (it starts and ends with a character that is
    not white space).  When the query cannot be URI-encoded (it holds an
    unpaired surrogate) no request is issued at all and the fetch error
    is shown; otherwise the first request geocodes the query by name, and
    then, only when the geocoder returned a first result, one forecast
    request follows for the coordinate of that result. *)
Theorem searchWeather_requests (host : Host) (s : State) :
  ~ blank (cityInput s) ->
  exists (c d : N) (q : Js.ustring),
    Js.trim (cityInput s) = c :: q
    /\ Js.is_white_space c = false
    /\ last (c :: q) = Some d /\ Js.is_white_space d = false
    /\ requests (final (searchWeather host s))
       = requests s
         ++ (if Js.well_formed (c :: q) then
               GeocodeByName (c :: q)
               :: match first_result
                          (geocoding_api host
                             (requests s ++ [GeocodeByName (c :: q)])) with
                  | Some r => [ForecastAt (GeoResult.latitude r)
                                          (GeoResult.longitude r)]
                  | None => []
                  end
             else [])
    /\ (Js.well_formed (c :: q) = false ->
        currentWeather (final (searchWeather host s))
        = [ErrorDiv "Error fetching weather data. Please try again."]).
Proof.
  intros Hnb.
  destruct (trim_edges (cityInput s) Hnb) as (c & d & q & Htrim & Hc & Hl & Hd).
  exists c, d, q. do 4 (split; [assumption|]).
  destruct (Js.well_formed (c :: q)) eqn:Hwf; cycle 1.
  { rewrite (searchWeather_malformed host s c q Htrim Hwf).
    split; [|reflexivity]. simpl. by rewrite app_nil_r. }
  split; [|discriminate].
  destruct (geocoding_api host (requests s ++ [GeocodeByName (c :: q)]))
    as [e | [[|r rest]|]] eqn:Hgeo; simpl.
  - by rewrite (searchWeather_geocoding_throws host s c q Htrim Hwf e Hgeo).
  - by rewrite (searchWeather_not_found host s c q Htrim Hwf (or_intror Hgeo)).
  - by destruct (searchWeather_resolved host s c q Htrim Hwf r rest Hgeo)
      as (s2 & _ & _ & _ & _ & -> & _).
  - by rewrite (searchWeather_not_found host s c q Htrim Hwf (or_introl Hgeo)).
Qed.

Lemma searchWeather_requests_witness :
  exists (c d : N) (q : Js.ustring),
    Js.trim (cityInput (type_input (utf16 "  Paris ") (loaded_page "")))
    = c :: q
    /\ Js.is_white_space c = false
    /\ last (c :: q) = Some d /\ Js.is_white_space d = false
    /\ requests
         (final (searchWeather (world (GeoJson None))
                   (type_input (utf16 "  Paris ") (loaded_page ""))))
       = requests (type_input (utf16 "  Paris ") (loaded_page ""))
         ++ (if Js.well_formed (c :: q) then
               GeocodeByName (c :: q)
               :: match first_result
                          (geocoding_api (world (GeoJson None))
                             (requests (type_input (utf16 "  Paris ")
                                                   (loaded_page ""))
                              ++ [GeocodeByName (c :: q)])) with
                  | Some r => [ForecastAt (GeoResult.latitude r)
                                          (GeoResult.longitude r)]
                  | None => []
                  end
             else [])
    /\ (Js.well_formed (c :: q) = false ->
        currentWeather
          (final (searchWeather (world (GeoJson None))
                    (type_input (utf16 "  Paris ") (loaded_page ""))))
        = [ErrorDiv "Error fetching weather data. Please try again."]).
Proof.
  apply (searchWeather_requests (world (GeoJson None))
           (type_input (utf16 "  Paris ") (loaded_page ""))).
  intros Hblank. apply Forall_inv_tail, Forall_inv_tail in Hblank.
  apply Forall_inv in Hblank. vm_compute in Hblank. discriminate.
Defined.

(** An unpaired surrogate in the input field: the lookup shows the fetch
    error without having issued a request; as half of a pair the same
    code unit is geocoded. *)
Example searchWeather_unpaired_surrogate :
  requests (final (searchWeather (world (GeoJson None))
                     (type_input [55296%N] (loaded_page ""))))
  = []
  /\ currentWeather (final (searchWeather (world (GeoJson None))
                              (type_input [55296%N] (loaded_page ""))))
     = [ErrorDiv "Error fetching weather data. Please try again."]
  /\ console (final (searchWeather (world (GeoJson None))
                       (type_input [55296%N] (loaded_page ""))))
     = ["Error fetching weather data:"]
  /\ head (requests (final (searchWeather (world (GeoJson None))
                              (type_input [55296%N; 56320%N]
                                          (loaded_page "")))))
     = Some (GeocodeByName [55296%N; 56320%N]).
Proof. split; [|split; [|split]]; vm_compute; reflexivity. Qed.

(** ** Rendering of incomplete data *)

Lemma displayForecast_days (host : Host) (d : Daily.t) (s : State) :
  daily_complete (Some d) = true ->
  exists cards : list Card.t,
    displayForecast host (Some d) s
    = Normal tt (set_forecast (ForecastCard <$> cards) s)
    /\ length cards = 5%nat
    /\ forall k : nat, (k < 5)%nat ->
         exists c, cards !! k = Some c /\ shows_day host d (S k) c.
Proof.
  intros Hd. destruct d as [t mx mn wc ws pr].
  destruct t, mx, mn, wc, ws, pr; try discriminate Hd.
  eexists [_; _; _; _; _]. split; [|split].
  - unfold displayForecast. run. reflexivity.
  - reflexivity.
  - intros k Hk.
    do 5 (destruct k as [|k];
          [eexists; split; [reflexivity | by repeat split]|]).
    lia.
Qed.

(** X9: when all six daily arrays are present, whatever their lengths,
    [displayForecast] does not fail: it shows exactly 5 cards, card k for
    day k+1, and an entry that an array lacks shows as an invalid date, a
    [NaN] temperature, the "Unknown" condition or an undefined amount. *)
Theorem displayForecast_short_arrays (host : Host) (d : Daily.t) (s : State) :
  daily_complete (Some d) = true ->
  exists cards : list Card.t,
    displayForecast host (Some d) s
    = Normal tt (set_forecast (ForecastCard <$> cards) s)
    /\ length cards = 5%nat
    /\ forall k : nat, (k < 5)%nat ->
         exists c, cards !! k = Some c /\ shows_day host d (S k) c.
Proof. apply displayForecast_days. Qed.

Lemma displayForecast_short_arrays_witness :
  exists cards : list Card.t,
    displayForecast (world (GeoJson None)) (Some short_daily) (loaded_page "")
    = Normal tt (set_forecast (ForecastCard <$> cards) (loaded_page ""))
    /\ length cards = 5%nat
    /\ forall k : nat, (k < 5)%nat ->
         exists c, cards !! k = Some c
                   /\ shows_day (world (GeoJson None)) short_daily (S k) c.
Proof.
  apply (displayForecast_short_arrays (world (GeoJson None)) short_daily).
  reflexivity.
Defined.

(** X10: when the daily block or one of its six arrays is missing,
    [displayForecast] throws in its first round: the forecast region has
    been emptied and no card is shown. *)
Theorem displayForecast_missing_array (host : Host) (daily : option Daily.t)
    (s : State) :
  daily_complete daily = false ->
  exists e : Exn,
    displayForecast host daily s = Throw e (set_forecast [] s).
Proof.
  intros Hd. unfold displayForecast.
  rewrite (bind_normal (modify (set_forecast [])) _ s _ tt eq_refl).
  apply forecast_loop_incomplete. exact Hd.
Qed.

Lemma displayForecast_missing_array_witness :
  exists e : Exn,
    displayForecast (world (GeoJson None)) None (loaded_page "London")
    = Throw e (set_forecast [] (loaded_page "London")).
Proof.
  apply (displayForecast_missing_array (world (GeoJson None)) None).
  reflexivity.
Defined.

(** ** The weather fetch, further *)

Lemma getWeatherData_renders (host : Host) (la lo : Q)
    (cityName country : option string) (s : State)
    (cur : Current.t) (d : Daily.t) :
  weather_api host (requests s ++ [ForecastAt la lo])
  = WeatherJson (Some cur) (Some d) ->
  daily_complete (Some d) = true ->
  exists (v : Summary.t) (cards : list Card.t),
    getWeatherData host la lo cityName country s
    = Normal tt (set_forecast (ForecastCard <$> cards)
                   (set_currentWeather [SummaryBlock v]
                      (set_requests (requests s ++ [ForecastAt la lo]) s)))
    /\ presents cur cityName country v
    /\ length cards = 5%nat
    /\ forall k : nat, (k < 5)%nat ->
         exists c, cards !! k = Some c /\ shows_day host d (S k) c.
Proof.
  intros Hw Hd. unfold getWeatherData, try_catch, fetch_weather.
  unfold mbind at 1. unfold M_bind at 1. cbn [requests set_requests].
  rewrite Hw.
  rewrite (bind_normal (displayCurrentWeather cur cityName country)
             _ _ _ tt eq_refl).
  match goal with
  | |- context [displayForecast host (Some d) ?s0] =>
      destruct (displayForecast_days host d s0 Hd)
        as (cards & -> & Hlen & Hdays)
  end.
  eexists. exists cards. split; [reflexivity|].
  split; [by repeat split|]. by split.
Qed.

(** X11: [getWeatherData] issues exactly one forecast request and leaves
    the session alone, whatever the answer: center, map, overlay, map
    controls and input field are as before, and it returns normally. *)
Theorem getWeatherData_session_untouched (host : Host) (la lo : Q)
    (cityName country : option string) (s : State) :
  exists s' : State,
    getWeatherData host la lo cityName country s = Normal tt s'
    /\ requests s' = requests s ++ [ForecastAt la lo]
    /\ currentLat s' = currentLat s /\ currentLon s' = currentLon s
    /\ leaflet_map s' = leaflet_map s /\ heatLayer s' = heatLayer s
    /\ buttons s' = buttons s /\ cityInput s' = cityInput s.
Proof.
  destruct (getWeatherData_returns host la lo cityName country s)
    as (s' & Hrun & (H1 & H2 & H3 & _ & H5 & H6 & H7) & Hreq).
  exists s'. by repeat split.
Qed.

(** X12: a weather answer without a [current] block is reported as a
    fetch error even when its daily data is complete: no card is
    rendered, the forecast region keeps what it held, and the failure is
    logged once on the console. *)
Theorem getWeatherData_no_current (host : Host) (la lo : Q)
    (cityName country : option string) (s : State) (daily : option Daily.t) :
  weather_api host (requests s ++ [ForecastAt la lo])
  = WeatherJson None daily ->
  exists s' : State,
    getWeatherData host la lo cityName country s = Normal tt s'
    /\ currentWeather s'
       = [ErrorDiv "Error fetching weather data. Please try again."]
    /\ forecast s' = forecast s
    /\ console s' = console s ++ ["Error fetching weather data:"].
Proof.
  intros Hw. eexists. split.
  - apply getWeatherData_fails. by rewrite Hw.
  - rewrite Hw. by repeat split.
Qed.

Lemma getWeatherData_no_current_witness :
  exists s' : State,
    getWeatherData world_without_current 48.85341 2.3488
                   (Some "Paris") (Some "France") (loaded_page "London")
    = Normal tt s'
    /\ currentWeather s'
       = [ErrorDiv "Error fetching weather data. Please try again."]
    /\ forecast s' = forecast (loaded_page "London")
    /\ console s'
       = console (loaded_page "London") ++ ["Error fetching weather data:"].
Proof.
  apply (getWeatherData_no_current world_without_current 48.85341 2.3488
           (Some "Paris") (Some "France") (loaded_page "London")
           (Some sample_daily)).
  reflexivity.
Defined.

(** ** Name lookups that reach the display *)

(** X13: on a page with a map and an active control, a name lookup whose
    geocoding and forecast answers are complete returns with the summary
    of the [current] block under the name and country of the first
    geocoding result (temperatures rounded, wind labelled by compass
    sector), with 5 forecast cards for days 1 to 5, with nothing logged
    and with exactly the two requests issued. *)
Theorem searchWeather_displays (host : Host) (s : State)
    (r : GeoResult.t) (rest : list GeoResult.t)
    (cur : Current.t) (d : Daily.t) (m : LeafletMap) (btn : Button) :
  unit_interval host ->
  Js.trim (cityInput s) <> [] ->
  geocoding_api host (requests s ++ [GeocodeByName (Js.trim (cityInput s))])
  = GeoJson (Some (r :: rest)) ->
  weather_api host
    (requests s ++ [GeocodeByName (Js.trim (cityInput s));
                    ForecastAt (GeoResult.latitude r) (GeoResult.longitude r)])
  = WeatherJson (Some cur) (Some d) ->
  daily_complete (Some d) = true ->
  leaflet_map s = Some m ->
  List.find active (buttons s) = Some btn ->
  exists (v : Summary.t) (cards : list Card.t) (s' : State),
    searchWeather host s = Normal tt s'
    /\ currentWeather s' = [SummaryBlock v]
    /\ presents cur (GeoResult.name r) (GeoResult.country r) v
    /\ forecast s' = ForecastCard <$> cards
    /\ length cards = 5%nat
    /\ (forall k : nat, (k < 5)%nat ->
          exists c, cards !! k = Some c /\ shows_day host d (S k) c)
    /\ console s' = console s
    /\ requests s'
       = requests s ++ [GeocodeByName (Js.trim (cityInput s));
                        ForecastAt (GeoResult.latitude r)
                                   (GeoResult.longitude r)].
Proof.
  intros Hrandom Hq Hgeo Hw Hd Hm Hbtn.
  destruct (Js.trim (cityInput s)) as [|c q] eqn:Htrim; [done|]. clear Hq.
  destruct (searchWeather_resolved_run host s c q r rest m btn
              Hrandom Htrim Hgeo Hm Hbtn)
    as (s2 & layer & Hrun & Hsearch & _).
  destruct (getWeatherData_renders host (GeoResult.latitude r)
              (GeoResult.longitude r) (GeoResult.name r) (GeoResult.country r)
              (resolved (c :: q) r s) cur d)
    as (v & cards & Hrun' & Hv & Hlen & Hdays).
  { cbn [resolved requests set_center set_requests]. by rewrite log_snoc. }
  { exact Hd. }
  rewrite Hrun' in Hrun. injection Hrun as Hs2.
  exists v, cards. eexists. split; [exact Hsearch|].
  rewrite <- Hs2.
  cbn [overlay_replaced currentWeather forecast console requests resolved
       set_heatLayer set_leaflet_map set_stamps set_draws set_forecast
       set_currentWeather set_requests set_center].
  rewrite log_snoc.
  exact (conj eq_refl (conj Hv (conj eq_refl (conj Hlen
           (conj Hdays (conj eq_refl eq_refl)))))).
Qed.

Lemma searchWeather_displays_witness :
  exists (v : Summary.t) (cards : list Card.t) (s' : State),
    searchWeather (world (GeoJson None))
                  (type_input (utf16 "Paris") (loaded_page "")) = Normal tt s'
    /\ currentWeather s' = [SummaryBlock v]
    /\ presents sample_current (GeoResult.name paris) (GeoResult.country paris) v
    /\ forecast s' = ForecastCard <$> cards
    /\ length cards = 5%nat
    /\ (forall k : nat, (k < 5)%nat ->
          exists c, cards !! k = Some c
                    /\ shows_day (world (GeoJson None)) sample_daily (S k) c)
    /\ console s' = console (type_input (utf16 "Paris") (loaded_page ""))
    /\ requests s'
       = requests (type_input (utf16 "Paris") (loaded_page ""))
         ++ [GeocodeByName
               (Js.trim (cityInput (type_input (utf16 "Paris")
                                               (loaded_page ""))));
             ForecastAt (GeoResult.latitude paris) (GeoResult.longitude paris)].
Proof.
  eapply (searchWeather_displays (world (GeoJson None))
            (type_input (utf16 "Paris") (loaded_page ""))
            paris [] sample_current sample_daily _ temperature_control).
  - apply world_unit_interval.
  - vm_compute. discriminate.
  - vm_compute. reflexivity.
  - vm_compute. reflexivity.
  - reflexivity.
  - vm_compute. reflexivity.
  - vm_compute. reflexivity.
Defined.

(** X14: when the same lookup runs on a page with a map but no active
    control, the weather is rendered and the map view is moved, but the
    overlay update throws and the handler of [searchWeather] overwrites
    the fresh summary with the fetch error: the page shows the 5 new
    cards under an error message, and the map is left without overlay. *)
Theorem searchWeather_overlay_failure (host : Host) (s : State)
    (r : GeoResult.t) (rest : list GeoResult.t)
    (cur : Current.t) (d : Daily.t) (m : LeafletMap) :
  Js.trim (cityInput s) <> [] ->
  geocoding_api host (requests s ++ [GeocodeByName (Js.trim (cityInput s))])
  = GeoJson (Some (r :: rest)) ->
  weather_api host
    (requests s ++ [GeocodeByName (Js.trim (cityInput s));
                    ForecastAt (GeoResult.latitude r) (GeoResult.longitude r)])
  = WeatherJson (Some cur) (Some d) ->
  daily_complete (Some d) = true ->
  leaflet_map s = Some m ->
  List.find active (buttons s) = None ->
  exists (cards : list Card.t) (s' : State),
    searchWeather host s = Normal tt s'
    /\ currentWeather s'
       = [ErrorDiv "Error fetching weather data. Please try again."]
    /\ forecast s' = ForecastCard <$> cards
    /\ length cards = 5%nat
    /\ console s' = console s ++ ["Error fetching weather data:"]
    /\ currentLat s' = GeoResult.latitude r
    /\ currentLon s' = GeoResult.longitude r
    /\ leaflet_map s'
       = Some {| center := (GeoResult.latitude r, GeoResult.longitude r);
                 zoom := 10;
                 layers := without (windLayer s)
                             (without (heatLayer s) (layers m)) |}.
Proof.
  intros Hq Hgeo Hw Hd Hm Hbtn.
  destruct (Js.trim (cityInput s)) as [|c q] eqn:Htrim; [done|]. clear Hq.
  pose proof (geocoding_api_answered host _ _ _ Hgeo) as Hwf.
  destruct (getWeatherData_renders host (GeoResult.latitude r)
              (GeoResult.longitude r) (GeoResult.name r) (GeoResult.country r)
              (resolved (c :: q) r s) cur d)
    as (v & cards & Hrun & _ & Hlen & _).
  { cbn [resolved requests set_center set_requests]. by rewrite log_snoc. }
  { exact Hd. }
  set (s2 := set_forecast (ForecastCard <$> cards)
               (set_currentWeather [SummaryBlock v]
                  (set_requests
                     (requests (resolved (c :: q) r s)
                      ++ [ForecastAt (GeoResult.latitude r)
                                     (GeoResult.longitude r)])
                     (resolved (c :: q) r s)))) in *.
  set (m3 := {| center := (GeoResult.latitude r, GeoResult.longitude r);
                zoom := 10; layers := layers m |}).
  assert (Hsv : map_setView (GeoResult.latitude r, GeoResult.longitude r) 10 s2
                = Normal tt (set_leaflet_map (Some m3) s2)).
  { unfold map_setView, with_map. run. by rewrite Hm. }
  pose proof (updateMapLayers_throws_run host m3
                (set_leaflet_map (Some m3) s2) eq_refl Hbtn) as Hup.
  exists cards. eexists. split.
  - rewrite (searchWeather_submitted host s c q Htrim Hwf), Hgeo. unfold try_catch.
    rewrite (bind_normal (modify _) _ _ _ tt eq_refl).
    change (set_center _ _ (submitted (c :: q) s)) with (resolved (c :: q) r s).
    rewrite (bind_normal _ _ _ _ tt Hrun).
    rewrite (bind_normal _ _ _ _ tt Hsv).
    rewrite Hup. reflexivity.
  - by repeat split.
Qed.

Lemma searchWeather_overlay_failure_witness :
  exists (cards : list Card.t) (s' : State),
    searchWeather (world (GeoJson None)) bare_page = Normal tt s'
    /\ currentWeather s'
       = [ErrorDiv "Error fetching weather data. Please try again."]
    /\ forecast s' = ForecastCard <$> cards
    /\ length cards = 5%nat.
Proof.
  assert (Hm : exists m, leaflet_map bare_page = Some m)
    by (eexists; vm_compute; reflexivity).
  destruct Hm as (m & Hm).
  destruct (searchWeather_overlay_failure (world (GeoJson None)) bare_page
              london [] sample_current sample_daily m)
    as (cards & s' & Hrun & Hcw & Hfc & Hlen & _).
  - vm_compute. discriminate.
  - vm_compute. reflexivity.
  - vm_compute. reflexivity.
  - reflexivity.
  - exact Hm.
  - vm_compute. reflexivity.
  - exists cards, s'. by repeat split.
Defined.

(** ** Device lookups *)

(** X15: when the device offers no geolocation, or refuses the position,
    a device lookup requests nothing and leaves center, map and overlay
    alone; it only reports the failure in the summary region.  In the
    refused case the loading placeholders were written first, so the
    forecast region is left on "Loading forecast..."; in the unsupported
    case it keeps its content. *)
Theorem getCurrentLocation_unavailable (host : Host) (s : State) :
  (geolocation host = None \/ exists msg, geolocation host = Some (PositionError msg)) ->
  exists s' : State,
    getCurrentLocation host s = Normal tt s'
    /\ requests s' = requests s
    /\ currentLat s' = currentLat s /\ currentLon s' = currentLon s
    /\ leaflet_map s' = leaflet_map s /\ heatLayer s' = heatLayer s
    /\ currentWeather s'
       = [ErrorDiv
            match geolocation host with
            | Some (PositionError msg) => "Error getting location: " ++ msg
            | _ => "Geolocation is not supported by this browser."
            end%string]
    /\ forecast s'
       = match geolocation host with
         | Some _ => [LoadingDiv "Loading forecast..."]
         | None => forecast s
         end.
Proof.
  intros [Hnone | (msg & Hdenied)]; unfold getCurrentLocation.
  - rewrite Hnone. eexists. split; [reflexivity|]. by repeat split.
  - rewrite Hdenied. eexists. split; [reflexivity|]. by repeat split.
Qed.

Lemma getCurrentLocation_unavailable_witness :
  exists s' : State,
    getCurrentLocation world_denied (loaded_page "London") = Normal tt s'
    /\ requests s' = requests (loaded_page "London")
    /\ currentWeather s'
       = [ErrorDiv "Error getting location: User denied Geolocation"]
    /\ forecast s' = [LoadingDiv "Loading forecast..."].
Proof.
  destruct (getCurrentLocation_unavailable world_denied (loaded_page "London"))
    as (s' & Hrun & Hreq & _ & _ & _ & _ & Hcw & Hfc).
  - right. eexists. reflexivity.
  - exists s'. by repeat split.
Defined.

Lemma getCurrentLocation_geocoding_fails (host : Host) (la lo : Q) (s : State)
    (e : Exn) :
  geolocation host = Some (Position la lo) ->
  geocoding_api host (requests s ++ [GeocodeByCoordinate la lo]) = GeoThrows e ->
  getCurrentLocation host s
  = getWeatherData host la lo (Some "Your Location") (Some "")
      (set_console (console s ++ ["Error getting location name:"])
                   (located la lo s)).
Proof.
  intros Hpos Hgeo. unfold getCurrentLocation. rewrite Hpos.
  rewrite (bind_normal showLoading _ s _ tt eq_refl).
  unfold on_position.
  rewrite (bind_normal (modify (set_center la lo)) _ _ _ tt eq_refl).
  unfold try_catch.
  rewrite (bind_normal (gets currentLat) _ _ _ _ eq_refl).
  rewrite (bind_normal (gets currentLon) _ _ _ _ eq_refl).
  cbv beta. cbn [currentLat currentLon set_center].
  unfold fetch_geocoding. unfold mbind at 1. unfold M_bind at 1.
  cbn [requests set_requests set_center set_forecast set_currentWeather].
  rewrite Hgeo.
  rewrite (bind_normal (console_error _) _ _ _ tt eq_refl).
  rewrite (bind_normal (gets currentLat) _ _ _ _ eq_refl).
  rewrite (bind_normal (gets currentLon) _ _ _ _ eq_refl).
  reflexivity.
Qed.

(** X16: when the reverse geocoding request of a device lookup fails, the
    forecast is still requested once for the device position, which has
    become the session center; but the map is neither recentered nor is
    its overlay regenerated: view, layers and overlay are those of before
    the lookup. *)
Theorem getCurrentLocation_map_left_behind (host : Host) (la lo : Q)
    (s : State) (e : Exn) :
  geolocation host = Some (Position la lo) ->
  geocoding_api host (requests s ++ [GeocodeByCoordinate la lo]) = GeoThrows e ->
  exists s' : State,
    getCurrentLocation host s = Normal tt s'
    /\ currentLat s' = la /\ currentLon s' = lo
    /\ leaflet_map s' = leaflet_map s /\ heatLayer s' = heatLayer s
    /\ requests s'
       = requests s ++ [GeocodeByCoordinate la lo; ForecastAt la lo].
Proof.
  intros Hpos Hgeo.
  rewrite (getCurrentLocation_geocoding_fails host la lo s e Hpos Hgeo).
  destruct (getWeatherData_returns host la lo (Some "Your Location") (Some "")
              (set_console (console s ++ ["Error getting location name:"])
                           (located la lo s)))
    as (s' & Hrun & (H1 & _ & H3 & _ & H5 & H6 & _) & Hreq).
  exists s'. split; [exact Hrun|].
  cbn [located requests currentLat currentLon leaflet_map heatLayer
       set_console set_requests set_center set_forecast set_currentWeather]
    in *.
  rewrite log_snoc in Hreq. by repeat split.
Qed.

Lemma getCurrentLocation_map_left_behind_witness :
  exists s' : State,
    getCurrentLocation
      (world (GeoThrows (FetchFailure "Failed to fetch"))) (loaded_page "")
    = Normal tt s'
    /\ currentLat s' = 40.7128%Q /\ currentLon s' = (-74.006)%Q
    /\ leaflet_map s' = leaflet_map (loaded_page "")
    /\ heatLayer s' = heatLayer (loaded_page "")
    /\ requests s'
       = requests (loaded_page "")
         ++ [GeocodeByCoordinate 40.7128 (-74.006);
             ForecastAt 40.7128 (-74.006)].
Proof.
  apply (getCurrentLocation_map_left_behind
           (world (GeoThrows (FetchFailure "Failed to fetch")))
           40.7128 (-74.006) (loaded_page "")
           (FetchFailure "Failed to fetch")).
  - reflexivity.
  - vm_compute. reflexivity.
Defined.

Lemma getCurrentLocation_geocoded (host : Host) (la lo : Q) (s : State)
    (results : option (list GeoResult.t)) :
  geolocation host = Some (Position la lo) ->
  geocoding_api host (requests s ++ [GeocodeByCoordinate la lo])
  = GeoJson results ->
  exists s2 : State,
    getWeatherData host la lo
      (Some (Js.or_else (first_field results GeoResult.name) "Your Location"))
      (Some (Js.or_else (first_field results GeoResult.country) ""))
      (located la lo s)
    = Normal tt s2
    /\ getCurrentLocation host s
       = match (map_setView (la, lo) 10 ;; updateMapLayers host) s2 with
         | Normal a s' => Normal a s'
         | Throw _ s' =>
             getWeatherData host (currentLat s') (currentLon s')
               (Some "Your Location") (Some "")
               (set_console (console s' ++ ["Error getting location name:"]) s')
         end.
Proof.
  intros Hpos Hgeo.
  destruct (getWeatherData_returns host la lo
              (Some (Js.or_else (first_field results GeoResult.name)
                                "Your Location"))
              (Some (Js.or_else (first_field results GeoResult.country) ""))
              (located la lo s))
    as (s2 & Hrun & (_ & _ & _ & _ & Hla & Hlo & _) & _).
  cbn [located currentLat currentLon set_requests set_center] in Hla, Hlo.
  exists s2. split; [exact Hrun|].
  unfold getCurrentLocation. rewrite Hpos.
  rewrite (bind_normal showLoading _ s _ tt eq_refl).
  unfold on_position.
  rewrite (bind_normal (modify (set_center la lo)) _ _ _ tt eq_refl).
  unfold try_catch.
  rewrite (bind_normal (gets currentLat) _ _ _ _ eq_refl).
  rewrite (bind_normal (gets currentLon) _ _ _ _ eq_refl).
  cbv beta. cbn [currentLat currentLon set_center].
  unfold fetch_geocoding. unfold mbind at 1. unfold M_bind at 1.
  cbn [requests set_requests set_center set_forecast set_currentWeather].
  rewrite Hgeo.
  rewrite (bind_normal (gets currentLat) _ _ _ _ eq_refl).
  rewrite (bind_normal (gets currentLon) _ _ _ _ eq_refl).
  cbv beta. cbn [currentLat currentLon set_requests set_center].
  change (set_requests (requests s ++ [GeocodeByCoordinate la lo])
            (set_center la lo
               (set_forecast [LoadingDiv "Loading forecast..."]
                  (set_currentWeather [LoadingDiv "Loading weather data..."]
                     s))))
    with (located la lo s).
  rewrite (bind_normal _ _ _ _ tt Hrun).
  rewrite (bind_normal (gets currentLat) _ _ _ _ eq_refl).
  rewrite (bind_normal (gets currentLon) _ _ _ _ eq_refl).
  cbv beta. rewrite Hla, Hlo.
  destruct ((map_setView (la, lo) 10 ;; updateMapLayers host) s2)
    as [a s' | e s']; [reflexivity|].
  rewrite (bind_normal (console_error _) _ _ _ tt eq_refl).
  rewrite (bind_normal (gets currentLat) _ _ _ _ eq_refl).
  rewrite (bind_normal (gets currentLon) _ _ _ _ eq_refl).
  reflexivity.
Qed.

(** X17: on a page with a map and an active control, a device lookup
    whose reverse geocoding returns a first result with a name titles the
    summary with that name and the country of that result; the forecast
    is requested for the device position, not for the coordinate of the
    geocoding result, and center, map view and a fresh 50-sample overlay
    are placed at the device position. *)
Theorem getCurrentLocation_named (host : Host) (la lo : Q) (s : State)
    (r : GeoResult.t) (rest : list GeoResult.t) (c : Ascii.ascii) (n : string)
    (m : LeafletMap) (btn : Button) :
  geolocation host = Some (Position la lo) ->
  geocoding_api host (requests s ++ [GeocodeByCoordinate la lo])
  = GeoJson (Some (r :: rest)) ->
  GeoResult.name r = Some (String c n) ->
  leaflet_map s = Some m ->
  List.find active (buttons s) = Some btn ->
  exists (layer : HeatLayer) (m' : LeafletMap) (s' : State),
    getCurrentLocation host s = Normal tt s'
    /\ requests s'
       = requests s ++ [GeocodeByCoordinate la lo; ForecastAt la lo]
    /\ currentLat s' = la /\ currentLon s' = lo
    /\ leaflet_map s' = Some m'
    /\ center m' = (la, lo) /\ zoom m' = 10
    /\ heatLayer s' = Some layer
    /\ length (points layer) = 50%nat
    /\ (weather_fails
          (weather_api host
             (requests s ++ [GeocodeByCoordinate la lo; ForecastAt la lo]))
        = false ->
        exists v : Summary.t,
          currentWeather s' = [SummaryBlock v]
          /\ Summary.cityName v = Some (String c n)
          /\ Summary.country v = Some (Js.or_else (GeoResult.country r) "")).
Proof.
  intros Hpos Hgeo Hname Hm Hbtn.
  destruct (getCurrentLocation_geocoded host la lo s _ Hpos Hgeo)
    as (s2 & Hrun & Hloc).
  pose proof (getWeatherData_outcome host la lo
                (Some (Js.or_else (first_field (Some (r :: rest)) GeoResult.name)
                                  "Your Location"))
                (Some (Js.or_else (first_field (Some (r :: rest))
                                               GeoResult.country) ""))
                (located la lo s)) as Hout.
  destruct Hout as (s2' & Hrun' & Hsame & Hreq & Hshow).
  rewrite Hrun in Hrun'. injection Hrun' as <-.
  destruct Hsame as (Hm2 & Hb2 & _ & _ & Hla & Hlo & _).
  cbn [located requests currentLat currentLon leaflet_map buttons
       set_requests set_center set_forecast set_currentWeather] in *.
  rewrite log_snoc in *.
  set (m3 := {| center := (la, lo); zoom := 10; layers := layers m |}).
  assert (Hsv : map_setView (la, lo) 10 s2
                = Normal tt (set_leaflet_map (Some m3) s2)).
  { unfold map_setView, with_map. run. by rewrite Hm2, Hm. }
  assert (Hbtn3 : List.find active (buttons (set_leaflet_map (Some m3) s2))
                  = Some btn) by (simpl; by rewrite Hb2).
  pose proof (updateMapLayers_run host m3 btn
                (set_leaflet_map (Some m3) s2) eq_refl Hbtn3) as Hup.
  rewrite (bind_normal _ _ _ _ tt Hsv), Hup in Hloc.
  eexists. eexists. eexists. split; [exact Hloc|].
  cbn [overlay_replaced requests currentLat currentLon leaflet_map heatLayer
       currentWeather set_heatLayer set_leaflet_map set_stamps set_draws
       center zoom points].
  split; [exact Hreq|]. split; [exact Hla|]. split; [exact Hlo|].
  do 4 (split; [reflexivity|]).
  split; [reflexivity|].
  intros Hok. destruct (Hshow Hok) as (v & Hv & Hn & Hc).
  exists v. split; [exact Hv|].
  rewrite Hn, Hc. unfold first_field. rewrite Hname. by split.
Qed.

(** X18: when a device lookup runs on a page with a map but no active
    control, the overlay update throws after the weather has been fetched
    and rendered, and the handler fetches the weather a second time under
    the fallback title: two forecast requests are issued for the device
    position, and a summary rendered from the second answer is titled
    "Your Location" with an empty country even if the geocoder returned a
    name. *)
Theorem getCurrentLocation_second_fetch (host : Host) (la lo : Q) (s : State)
    (results : option (list GeoResult.t)) (m : LeafletMap) :
  geolocation host = Some (Position la lo) ->
  geocoding_api host (requests s ++ [GeocodeByCoordinate la lo])
  = GeoJson results ->
  leaflet_map s = Some m ->
  List.find active (buttons s) = None ->
  exists s' : State,
    getCurrentLocation host s = Normal tt s'
    /\ requests s'
       = requests s ++ [GeocodeByCoordinate la lo; ForecastAt la lo;
                        ForecastAt la lo]
    /\ currentLat s' = la /\ currentLon s' = lo
    /\ (weather_fails
          (weather_api host
             (requests s ++ [GeocodeByCoordinate la lo; ForecastAt la lo;
                             ForecastAt la lo]))
        = false ->
        exists v : Summary.t,
          currentWeather s' = [SummaryBlock v]
          /\ Summary.cityName v = Some "Your Location"
          /\ Summary.country v = Some "").
Proof.
  intros Hpos Hgeo Hm Hbtn.
  destruct (getCurrentLocation_geocoded host la lo s _ Hpos Hgeo)
    as (s2 & Hrun & Hloc).
  destruct (getWeatherData_returns host la lo
              (Some (Js.or_else (first_field results GeoResult.name)
                                "Your Location"))
              (Some (Js.or_else (first_field results GeoResult.country) ""))
              (located la lo s))
    as (s2' & Hrun' & (Hm2 & Hb2 & _ & _ & Hla & Hlo & _) & Hreq).
  rewrite Hrun in Hrun'. injection Hrun' as <-.
  cbn [located requests currentLat currentLon leaflet_map buttons
       set_requests set_center set_forecast set_currentWeather] in *.
  rewrite log_snoc in Hreq.
  set (m3 := {| center := (la, lo); zoom := 10; layers := layers m |}).
  assert (Hsv : map_setView (la, lo) 10 s2
                = Normal tt (set_leaflet_map (Some m3) s2)).
  { unfold map_setView, with_map. run. by rewrite Hm2, Hm. }
  assert (Hbtn3 : List.find active (buttons (set_leaflet_map (Some m3) s2))
                  = None) by (simpl; by rewrite Hb2).
  pose proof (updateMapLayers_throws_run host m3
                (set_leaflet_map (Some m3) s2) eq_refl Hbtn3) as Hup.
  rewrite (bind_normal _ _ _ _ tt Hsv), Hup in Hloc.
  cbn [currentLat currentLon console set_leaflet_map] in Hloc.
  rewrite Hla, Hlo in Hloc.
  match type of Hloc with
  | _ = getWeatherData host la lo ?n ?c ?s0 =>
      pose proof (getWeatherData_outcome host la lo n c s0) as Hout
  end.
  destruct Hout as (s' & Hrun3 & Hsame3 & Hreq3 & Hshow).
  destruct Hsame3 as (_ & _ & _ & _ & Hla3 & Hlo3 & _).
  cbn [requests currentLat currentLon set_console set_leaflet_map] in *.
  rewrite Hreq in Hreq3, Hshow.
  replace ((requests s ++ [GeocodeByCoordinate la lo; ForecastAt la lo])
           ++ [ForecastAt la lo])
    with (requests s ++ [GeocodeByCoordinate la lo; ForecastAt la lo;
                         ForecastAt la lo]) in *
    by (by rewrite <- app_assoc).
  exists s'. split; [by rewrite Hloc|].
  split; [exact Hreq3|]. split; [congruence|]. split; [congruence|].
  exact Hshow.
Qed.

Lemma getCurrentLocation_named_witness :
  exists (layer : HeatLayer) (m' : LeafletMap) (s' : State),
    getCurrentLocation (world (GeoJson (Some [new_york]))) (loaded_page "")
    = Normal tt s'
    /\ requests s'
       = requests (loaded_page "")
         ++ [GeocodeByCoordinate 40.7128 (-74.006);
             ForecastAt 40.7128 (-74.006)]
    /\ currentLat s' = 40.7128%Q /\ currentLon s' = (-74.006)%Q
    /\ leaflet_map s' = Some m'
    /\ center m' = (40.7128, -74.006)%Q /\ zoom m' = 10
    /\ heatLayer s' = Some layer
    /\ length (points layer) = 50%nat
    /\ (weather_fails
          (weather_api (world (GeoJson (Some [new_york])))
             (requests (loaded_page "")
              ++ [GeocodeByCoordinate 40.7128 (-74.006);
                  ForecastAt 40.7128 (-74.006)]))
        = false ->
        exists v : Summary.t,
          currentWeather s' = [SummaryBlock v]
          /\ Summary.cityName v = Some "New York"
          /\ Summary.country v
             = Some (Js.or_else (GeoResult.country new_york) "")).
Proof.
  eapply (getCurrentLocation_named (world (GeoJson (Some [new_york])))
            40.7128 (-74.006) (loaded_page "") new_york []
            _ _ _ temperature_control).
  - reflexivity.
  - vm_compute. reflexivity.
  - reflexivity.
  - vm_compute. reflexivity.
  - vm_compute. reflexivity.
Defined.

Lemma getCurrentLocation_second_fetch_witness :
  exists s' : State,
    getCurrentLocation (world (GeoJson (Some [new_york]))) bare_page
    = Normal tt s'
    /\ requests s'
       = requests bare_page
         ++ [GeocodeByCoordinate 40.7128 (-74.006);
             ForecastAt 40.7128 (-74.006); ForecastAt 40.7128 (-74.006)].
Proof.
  assert (Hm : exists m, leaflet_map bare_page = Some m)
    by (eexists; vm_compute; reflexivity).
  destruct Hm as (m & Hm).
  destruct (getCurrentLocation_second_fetch
              (world (GeoJson (Some [new_york]))) 40.7128 (-74.006)
              bare_page (Some [new_york]) m)
    as (s' & Hrun & Hreq & _).
  - reflexivity.
  - vm_compute. reflexivity.
  - exact Hm.
  - vm_compute. reflexivity.
  - exists s'. by split.
Defined.

(** ** Start-up without the temperature control *)

Lemma activate_none (label : string) (bs : list Button) :
  Forall (fun btn => textContent btn <> label) bs ->
  List.find active (activate label bs) = None.
Proof.
  induction 1 as [|b bs Hb _ IH]; [reflexivity|].
  simpl. by rewrite bool_decide_eq_false_2.
Qed.

(** X19: on a page none of whose map controls carries the temperature
    label, start-up stops in [initMap] with a [TypeError]: the map has
    been created at the default center with its tile layer only, no
    overlay exists, and the automatic first lookup never runs, so nothing
    is requested and both regions keep their initial content. *)
Theorem initApp_without_temperature_control (host : Host)
    (input : Js.ustring) (summary0 forecast0 : list Node) (bs : list Button) :
  Forall (fun btn => textContent btn <> temperature_label) bs ->
  exists (e : Exn) (s' : State),
    initApp host (startup input summary0 forecast0 bs) = Throw e s'
    /\ requests s' = []
    /\ currentWeather s' = summary0 /\ forecast s' = forecast0
    /\ leaflet_map s'
       = Some {| center := (51.5074, -0.1278)%Q; zoom := 10;
                 layers := [TileLayer "https://{s}.tile.openstreetmap.org/{z}/{x}/{y}.png"] |}
    /\ heatLayer s' = None
    /\ Forall (fun btn => active btn = false) (buttons s').
Proof.
  intros Hbs.
  set (s0 := startup input summary0 forecast0 bs).
  set (tile := TileLayer "https://{s}.tile.openstreetmap.org/{z}/{x}/{y}.png").
  set (m := {| center := (51.5074, -0.1278)%Q; zoom := 10; layers := [tile] |}).
  set (sa := set_buttons (activate temperature_label bs)
               (set_leaflet_map (Some m) s0)).
  pose proof (updateMapLayers_throws_run host m sa eq_refl
                (activate_none temperature_label bs Hbs)) as Hup.
  eexists. eexists. split.
  - unfold initApp. apply bind_throw. unfold initMap.
    rewrite (bind_normal (gets currentLat) _ s0 s0 _ eq_refl).
    rewrite (bind_normal (gets currentLon) _ s0 s0 _ eq_refl).
    cbv beta.
    rewrite (bind_normal (modify _) _ s0 _ tt eq_refl).
    assert (Htile : map_addLayer tile
                      (set_leaflet_map
                         (Some {| center := (currentLat s0, currentLon s0);
                                  zoom := 10; layers := [] |}) s0)
                    = Normal tt (set_leaflet_map (Some m) s0)) by reflexivity.
    rewrite (bind_normal _ _ _ _ tt Htile).
    unfold showTemperatureMap.
    assert (Hact : setActiveButton temperature_label
                     (set_leaflet_map (Some m) s0) = Normal tt sa)
      by reflexivity.
    fold temperature_label.
    rewrite (bind_normal _ _ _ _ tt Hact).
    exact Hup.
  - cbn [requests currentWeather forecast leaflet_map heatLayer buttons
         set_leaflet_map set_buttons]. 
    do 5 (split; [reflexivity|]).
    unfold activate. apply Forall_forall. intros b Hb.
    apply list_elem_of_fmap in Hb as (b0 & -> & Hb0).
    simpl. apply bool_decide_eq_false_2.
    rewrite Forall_forall in Hbs. by apply Hbs.
Qed.

Lemma initApp_without_temperature_control_witness :
  exists (e : Exn) (s' : State),
    initApp (world (GeoJson None))
            (startup (utf16 "London") [] []
               [ {| textContent := "Temperature"; active := true |} ])
    = Throw e s'
    /\ requests s' = []
    /\ currentWeather s' = [] /\ forecast s' = []
    /\ leaflet_map s'
       = Some {| center := (51.5074, -0.1278)%Q; zoom := 10;
                 layers := [TileLayer "https://{s}.tile.openstreetmap.org/{z}/{x}/{y}.png"] |}
    /\ heatLayer s' = None
    /\ Forall (fun btn => active btn = false) (buttons s').
Proof.
  apply (initApp_without_temperature_control (world (GeoJson None))
           (utf16 "London") [] []
           [ {| textContent := "Temperature"; active := true |} ]).
  repeat constructor. discriminate.
Defined.

(** ** Exclusive controls *)

Lemma activate_labels (label : string) (bs : list Button) :
  textContent <$> activate label bs = textContent <$> bs.
Proof.
  unfold activate. induction bs as [|b bs IH]; [reflexivity|].
  cbn. f_equal. exact IH.
Qed.

Lemma activate_absent (label : string) (bs : list Button) :
  label ∉ textContent <$> bs ->
  List.filter active (activate label bs) = [].
Proof.
  induction bs as [|b bs IH]; intros Hnot; [reflexivity|].
  simpl in *. apply not_elem_of_cons in Hnot as [Hne Hnot].
  rewrite bool_decide_eq_false_2 by congruence. by apply IH.
Qed.

(** X20: [setActiveButton] keeps the controls and their labels and makes
    a control active exactly when its label is the requested one; on a
    page whose controls have distinct labels at most one control is
    active afterwards. *)
Theorem setActiveButton_exclusive (label : string) (s : State) :
  NoDup (textContent <$> buttons s) ->
  textContent <$> buttons (final (setActiveButton label s))
  = textContent <$> buttons s
  /\ Forall (fun btn => active btn = true <-> textContent btn = label)
            (buttons (final (setActiveButton label s)))
  /\ (length (List.filter active (buttons (final (setActiveButton label s))))
      <= 1)%nat.
Proof.
  intros Hnd. cbn [setActiveButton modify final buttons set_buttons].
  fold (activate label (buttons s)).
  split; [apply activate_labels|]. split.
  - unfold activate. apply Forall_forall. intros b Hb.
    apply list_elem_of_fmap in Hb as (b0 & -> & _). simpl.
    rewrite bool_decide_eq_true. reflexivity.
  - induction (buttons s) as [|b bs IH]; [simpl; lia|].
    simpl in Hnd. apply NoDup_cons in Hnd as [Hnot Hnd].
    simpl. destruct (decide (textContent b = label)) as [Heq | Hne].
    + rewrite bool_decide_eq_true_2 by exact Heq. simpl.
      rewrite (activate_absent label bs) by (by rewrite <- Heq). simpl. lia.
    + rewrite bool_decide_eq_false_2 by exact Hne. by apply IH.
Qed.

Lemma setActiveButton_exclusive_witness :
  textContent <$> buttons (final (setActiveButton (mode_label Wind)
                                                   (loaded_page "London")))
  = textContent <$> buttons (loaded_page "London")
  /\ Forall (fun btn => active btn = true <-> textContent btn = mode_label Wind)
            (buttons (final (setActiveButton (mode_label Wind)
                                             (loaded_page "London"))))
  /\ (length (List.filter active
                (buttons (final (setActiveButton (mode_label Wind)
                                                 (loaded_page "London")))))
      <= 1)%nat.
Proof.
  apply (setActiveButton_exclusive (mode_label Wind) (loaded_page "London")).
  vm_compute.
  repeat (apply NoDup_cons; split;
          [intros H;
           repeat (apply elem_of_cons in H as [H | H]; [discriminate H|]);
           by apply elem_of_nil in H|]).
  apply NoDup_nil. exact I.
Defined.
